(** * SECOM MES Operators API client: a shallow embedding and its properties

    The module under study is [src/operators/operators_api.py]: one request
    helper ([_make_request]), five entity accessors that each forward one GET
    to the helper and return the decoded JSON body, and three utilities
    ([get_operator_summary], [search_operators], [safe_get_operator]).

    The Python code is asynchronous but strictly sequential (every [await] is
    waited for before the next statement runs), so it is embedded as a state
    and exception monad over an explicit [World]: the remote server, the log
    of requests issued so far, and the wall clock.  *)

From stdpp Require Import list.
From Stdlib Require Import ZArith String Ascii List Bool Lia.
From Stdlib Require Import DecimalString DecimalPos DecimalZ SpecFloat.
Import ListNotations.

#[local] Set Warnings "-register-all".

Local Open Scope string_scope.
Local Open Scope list_scope.
Local Open Scope Z_scope.

(** ** Python values

    What [response.json()] can hand back: the Python images of JSON values.
    A [dict] is kept as an association list in insertion order; looking a key
    up takes its first binding.  A [str] is the UTF-8 text of the Python
    string. *)

Inductive value : Type :=
| PyNone
| PyBool (b : bool)
| PyInt (z : Z)
| PyFloat (f : spec_float)
| PyStr (s : string)
| PyList (items : list value)
| PyDict (entries : list (string * value)).

(** The classes [Operator], [ProductType], [Equipment], [Shift] and [Lot]
    are [TypedDict]s with [total=False]: annotations only, never checked at
    run time.  An [Operator] or a [Lot] is, at run time, whatever the server
    sent; a well-formed one is a [PyDict]. *)
Definition is_dict (v : value) : Prop :=
  match v with
  | PyDict _ => True
  | _ => False
  end.

(** Python's [str(n)] / [f"{n}"] for an [int]: decimal digits, a leading
    minus sign for negative numbers. *)
Definition str_of_int (n : Z) : string := NilZero.string_of_int (Z.to_int n).

(** Truthiness of a [str], as tested by [if department:] and [if status:]:
    only the empty string is false.  ([None], the other value an
    [Optional[str]] argument can take, is false as well.) *)
Definition truthy (s : string) : bool := negb (s =? "")%string.

(** [v == s] for a [str] [s]: only an equal [str] compares equal. *)
Definition eq_str (v : value) (s : string) : bool :=
  match v with
  | PyStr t => (t =? s)%string
  | _ => false
  end.

Fixpoint assoc (key : string) (entries : list (string * value)) : option value :=
  match entries with
  | [] => None
  | (k, v) :: rest => if (k =? key)%string then Some v else assoc key rest
  end.

(** The keys of a [dict], each once, in first-insertion order. *)
Fixpoint keys (entries : list (string * value)) : list string :=
  match entries with
  | [] => []
  | (k, _) :: rest =>
      k :: List.filter (fun k' => negb (k' =? k)%string) (keys rest)
  end.

(** A byte of the form 10xxxxxx continues a UTF-8 sequence. *)
Definition is_continuation (c : ascii) : bool :=
  let n := Z.of_nat (nat_of_ascii c) in (128 <=? n) && (n <? 192).

(** The characters (code points) of a [str], each as a one-character [str]. *)
Fixpoint characters (s : string) : list string :=
  match s with
  | EmptyString => []
  | String c rest =>
      let following := characters rest in
      match rest, following with
      | String d _, g :: gs =>
          if is_continuation d then String c g :: gs
          else String c EmptyString :: following
      | _, _ => String c EmptyString :: following
      end
  end.

(** ** The httpx client library, as far as the module uses it *)

Record Request : Type := mkRequest {
  req_method : string;
  req_url : string;
  req_json : option value;
  req_params : option value;
  req_headers : list (string * string);
  req_timeout : Z
}.

(** A received response: its status code and what [response.json()] gives
    ([None] when the body is not a JSON document). *)
Record Response : Type := mkResponse {
  status_code : Z;
  json_body : option value
}.

(** The ways [client.request] fails without a response; all of them are
    subclasses of [httpx.RequestError], itself a subclass of
    [httpx.HTTPError]. *)
Inductive request_failure : Type :=
| ConnectTimeout | ReadTimeout | WriteTimeout | PoolTimeout
| ConnectError | ReadError | WriteError | CloseError
| LocalProtocolError | RemoteProtocolError
| ProxyError | UnsupportedProtocol
| DecodingError | TooManyRedirects.

Inductive Exn : Type :=
| HTTPStatusError (response : Response)   (* httpx.HTTPStatusError *)
| RequestError (kind : request_failure)   (* httpx.RequestError family *)
| JSONDecodeError                         (* json.JSONDecodeError, a ValueError *)
| AttributeError
| TypeError.

(** [isinstance(e, httpx.HTTPError)]: the base class of both httpx families. *)
Definition is_HTTPError (e : Exn) : bool :=
  match e with
  | HTTPStatusError _ | RequestError _ => true
  | _ => false
  end.

Inductive Result (A : Type) : Type :=
| Ok (a : A)
| Raise (e : Exn).
Arguments Ok {A} a.
Arguments Raise {A} e.

(** What the network does with one request. *)
Inductive Outcome : Type :=
| Responded (r : Response)
| Failed (kind : request_failure).

(** The world outside the process.  [network] is the remote side: its answer
    to a request may depend on everything sent before.  [sent] logs the
    requests issued so far, oldest first.  [clock] gives the reading of the
    wall clock at its n-th consultation. *)
Record World : Type := mkWorld {
  network : list Request -> Request -> Outcome;
  sent : list Request;
  clock : nat -> string;
  clock_reads : nat
}.

(** ** Sequential effectful code: state plus exceptions *)

Definition IO (A : Type) : Type := World -> Result A * World.

Definition ret {A} (a : A) : IO A := fun w => (Ok a, w).

Definition raise {A} (e : Exn) : IO A := fun w => (Raise e, w).

Definition bind {A B} (m : IO A) (k : A -> IO B) : IO B :=
  fun w =>
    match m w with
    | (Ok a, w') => k a w'
    | (Raise e, w') => (Raise e, w')
    end.

Definition lift {A} (r : Result A) : IO A := fun w => (r, w).

(** [try: body / except ...]: [handlers e] is the body of the first [except]
    clause that matches [e], or [None] when no clause matches and the
    exception keeps propagating. *)
Definition try_except {A} (body : IO A) (handlers : Exn -> option (IO A)) : IO A :=
  fun w =>
    match body w with
    | (Ok a, w') => (Ok a, w')
    | (Raise e, w') =>
        match handlers e with
        | Some h => h w'
        | None => (Raise e, w')
        end
    end.

Notation "x <- m ;; k" := (bind m (fun x => k))
  (at level 100, m at next level, right associativity).

(** The value and the final world of a run. *)
Definition result_of {A} (run : Result A * World) : Result A := fst run.
Definition world_after {A} (run : Result A * World) : World := snd run.

(** [await client.request(...)] on an [AsyncClient] built with the given
    timeout; redirects are not followed and nothing is retried, so this is
    one exchange with the network. *)
Definition log_request (req : Request) (w : World) : World :=
  {| network := network w; sent := sent w ++ [req];
     clock := clock w; clock_reads := clock_reads w |}.

Definition client_request (req : Request) : IO Response :=
  fun w =>
    let w' := log_request req w in
    match network w (sent w) req with
    | Responded r => (Ok r, w')
    | Failed kind => (Raise (RequestError kind), w')
    end.

(** [response.is_success]: a 2xx status code. *)
Definition is_success (r : Response) : bool :=
  (200 <=? status_code r) && (status_code r <=? 299).

(** [response.raise_for_status()]. *)
Definition raise_for_status (r : Response) : IO unit :=
  if is_success r then ret tt else raise (HTTPStatusError r).

(** [response.json()]. *)
Definition json (r : Response) : IO value :=
  match json_body r with
  | Some v => ret v
  | None => raise JSONDecodeError
  end.

(** [datetime.now().isoformat()]. *)
Definition now_isoformat : IO string :=
  fun w =>
    (Ok (clock w (clock_reads w)),
     {| network := network w; sent := sent w;
        clock := clock w; clock_reads := S (clock_reads w) |}).

(** [len(v)]: defined on lists, dicts and strings. *)
Definition len (v : value) : Result Z :=
  match v with
  | PyList items => Ok (Z.of_nat (length items))
  | PyDict entries => Ok (Z.of_nat (length (keys entries)))
  | PyStr s => Ok (Z.of_nat (length (characters s)))
  | _ => Raise TypeError
  end.

(** [v.get(key)]: only a dict has the method; a missing key gives [None]. *)
Definition get (v : value) (key : string) : Result value :=
  match v with
  | PyDict entries =>
      Ok (match assoc key entries with Some x => x | None => PyNone end)
  | _ => Raise AttributeError
  end.

(** [for x in v]: the sequence a [for] clause runs over. *)
Definition iterate (v : value) : Result (list value) :=
  match v with
  | PyList items => Ok items
  | PyDict entries => Ok (map PyStr (keys entries))
  | PyStr s => Ok (map PyStr (characters s))
  | _ => Raise TypeError
  end.

(** ** operators_api.py *)

Definition DEFAULT_BASE_URL : string := "http://localhost:8080/api/v1".

Definition DEFAULT_TIMEOUT : Z := 30.

(** The header dictionary every request carries. *)
Definition JSON_HEADERS : list (string * string) :=
  [("Content-Type", "application/json"); ("Accept", "application/json")].

(** An argument with a default: [None] stands for "not passed". *)
Definition or_default {A} (default : A) (arg : option A) : A :=
  match arg with
  | Some a => a
  | None => default
  end.

Definition _make_request (method endpoint : string) (base_url : option string)
    (json_data params : option value) (timeout : option Z) : IO Response :=
  let base_url := or_default DEFAULT_BASE_URL base_url in
  let timeout := or_default DEFAULT_TIMEOUT timeout in
  let url := (base_url ++ endpoint)%string in
  response <- client_request
                {| req_method := method; req_url := url;
                   req_json := json_data; req_params := params;
                   req_headers := JSON_HEADERS; req_timeout := timeout |} ;;
  _ <- raise_for_status response ;;
  ret response.

Definition get_operator_by_id (operator_id : Z) (base_url : option string) : IO value :=
  let base_url := or_default DEFAULT_BASE_URL base_url in
  response <- _make_request "GET" ("/operators/" ++ str_of_int operator_id)%string
                (Some base_url) None None None ;;
  json response.

Definition get_all_operators (base_url : option string) : IO value :=
  let base_url := or_default DEFAULT_BASE_URL base_url in
  response <- _make_request "GET" "/operators" (Some base_url) None None None ;;
  json response.

Definition get_operator_lots (operator_id : Z) (base_url : option string) : IO value :=
  let base_url := or_default DEFAULT_BASE_URL base_url in
  response <- _make_request "GET" ("/operators/" ++ str_of_int operator_id ++ "/lots")%string
                (Some base_url) None None None ;;
  json response.

Definition get_operators_by_department (department : string) (base_url : option string)
    : IO value :=
  let base_url := or_default DEFAULT_BASE_URL base_url in
  response <- _make_request "GET" ("/operators/department/" ++ department)%string
                (Some base_url) None None None ;;
  json response.

Definition get_operator_by_code (code : string) (base_url : option string) : IO value :=
  let base_url := or_default DEFAULT_BASE_URL base_url in
  response <- _make_request "GET" ("/operators/code/" ++ code)%string
                (Some base_url) None None None ;;
  json response.

Definition get_operator_summary (operator_id : Z) (base_url : option string) : IO value :=
  let base_url := or_default DEFAULT_BASE_URL base_url in
  operator <- get_operator_by_id operator_id (Some base_url) ;;
  lots <- get_operator_lots operator_id (Some base_url) ;;
  total_lots <- lift (len lots) ;;
  department <- lift (get operator "department") ;;
  generated_at <- now_isoformat ;;
  ret (PyDict [("operator", operator);
               ("lots", lots);
               ("total_lots", PyInt total_lots);
               ("departments", PyList [department]);
               ("summary_generated_at", PyStr generated_at)]).

(** [[x for x in items if keep(x)]], where evaluating the condition may
    raise. *)
Fixpoint comprehension (keep : value -> Result bool) (items : list value)
    : Result (list value) :=
  match items with
  | [] => Ok []
  | x :: rest =>
      match keep x with
      | Raise e => Raise e
      | Ok b =>
          match comprehension keep rest with
          | Raise e => Raise e
          | Ok kept => Ok (if b then x :: kept else kept)
          end
      end
  end.

(** The condition [op.get("status") == status]. *)
Definition has_status (status : string) (op : value) : Result bool :=
  match get op "status" with
  | Ok v => Ok (eq_str v status)
  | Raise e => Raise e
  end.

Definition search_operators (department status : option string)
    (base_url : option string) : IO value :=
  let base_url := or_default DEFAULT_BASE_URL base_url in
  operators <-
    match department with
    | Some d =>
        if truthy d then get_operators_by_department d (Some base_url)
        else get_all_operators (Some base_url)
    | None => get_all_operators (Some base_url)
    end ;;
  match status with
  | Some s =>
      if truthy s then
        items <- lift (iterate operators) ;;
        kept <- lift (comprehension (has_status s) items) ;;
        ret (PyList kept)
      else ret operators
  | None => ret operators
  end.

Definition safe_get_operator (operator_id : Z) (base_url : option string) : IO value :=
  let base_url := or_default DEFAULT_BASE_URL base_url in
  try_except (get_operator_by_id operator_id (Some base_url))
    (fun e =>
       match e with
       | HTTPStatusError response =>
           Some (if status_code response =? 404 then ret PyNone else raise e)
       | _ =>
           if is_HTTPError e then Some (ret PyNone) else None
       end).

(** ** Vocabulary for the statements *)

(** The request [_make_request] builds from its resolved arguments. *)
Definition request_for (method url : string) (json_data params : option value)
    (timeout : Z) : Request :=
  {| req_method := method; req_url := url;
     req_json := json_data; req_params := params;
     req_headers := JSON_HEADERS; req_timeout := timeout |}.

(** The request an entity accessor sends: a plain GET with the default
    timeout. *)
Definition get_request (url : string) : Request :=
  request_for "GET" url None None DEFAULT_TIMEOUT.

(** What a GET of [req] followed by [response.json()] yields in world [w]. *)
Definition fetched (req : Request) (w : World) : Result value :=
  match network w (sent w) req with
  | Responded r =>
      if is_success r then
        match json_body r with
        | Some v => Ok v
        | None => Raise JSONDecodeError
        end
      else Raise (HTTPStatusError r)
  | Failed kind => Raise (RequestError kind)
  end.

(** [call] performs a single GET to [url] and returns the decoded body
    untouched: whatever world it starts in, it adds exactly that one request
    to the log, and when the answer is a 2xx response whose body decodes to
    [v], the result is [v] itself, whatever its shape. *)
Definition forwards_one_get (call : IO value) (url : string) : Prop :=
  forall w : World,
    sent (world_after (call w)) =
      sent w ++ [ {| req_method := "GET"; req_url := url;
                     req_json := None; req_params := None;
                     req_headers := JSON_HEADERS; req_timeout := 30 |} ]
    /\ result_of (call w) = fetched (get_request url) w
    /\ (forall r v,
          network w (sent w) (get_request url) = Responded r ->
          200 <= status_code r <= 299 ->
          json_body r = Some v ->
          result_of (call w) = Ok v).

(** [call] issues exactly one request, under the given timeout, whatever
    the network does with it (answer, failure or timeout). *)
Definition issues_one_request {A} (timeout : Z) (call : IO A) : Prop :=
  forall w : World,
    exists req : Request,
      sent (world_after (call w)) = sent w ++ [req]
      /\ req_timeout req = timeout.

(** The in-memory status filter of [search_operators], on its own. *)
Definition filter_by_status (status : string) (operators : value) : IO value :=
  items <- lift (iterate operators) ;;
  kept <- lift (comprehension (has_status status) items) ;;
  ret (PyList kept).

(** [search_operators] read with "given" as "passed": the presence of the
    department argument chooses the fetch, the presence of the status
    argument switches the filter on. *)
Definition search_operators_as_specified (department status : option string)
    (base_url : option string) : IO value :=
  operators <-
    match department with
    | Some d => get_operators_by_department d base_url
    | None => get_all_operators base_url
    end ;;
  match status with
  | Some s => filter_by_status s operators
  | None => ret operators
  end.

(** An optional argument as the guards [if department:] and [if status:]
    see it: an empty string counts as not given. *)
Definition effective (arg : option string) : option string :=
  match arg with
  | Some s => if truthy s then Some s else None
  | None => None
  end.

(** The fetch [search_operators] builds on: by department when a non-empty
    department is given, all operators otherwise. *)
Definition underlying_fetch (department : option string) (base_url : option string)
    : IO value :=
  match effective department with
  | Some d => get_operators_by_department d base_url
  | None => get_all_operators base_url
  end.

(** The record [op] has a status field equal to [status]. *)
Definition status_is (status : string) (op : value) : bool :=
  match get op "status" with
  | Ok v => eq_str v status
  | Raise _ => false
  end.

(** ** A sample server

    Operator 1 is John Smith of Production with two lots; operator 2 works
    in Quality and is inactive.  Operator 500 makes the server fail,
    operator 504 is never answered in time, any other operator is unknown.
    Departments without operators are answered with an empty array. *)

Definition john_smith : value :=
  PyDict [("operatorId", PyInt 1); ("operatorCode", PyStr "OP001");
          ("operatorName", PyStr "John Smith");
          ("department", PyStr "Production"); ("status", PyStr "Active")].

Definition mary_jones : value :=
  PyDict [("operatorId", PyInt 2); ("operatorCode", PyStr "OP002");
          ("operatorName", PyStr "Mary Jones");
          ("department", PyStr "Quality"); ("status", PyStr "Inactive")].

Definition lot (id : Z) (number : string) : value :=
  PyDict [("lotId", PyInt id); ("lotNumber", PyStr number);
          ("waferCount", PyInt 25); ("status", PyStr "Completed")].

Definition sample_base : string := "http://mes.example/api/v1".

Definition sample_answer (req : Request) : Outcome :=
  let url := req_url req in
  let ok body := Responded {| status_code := 200; json_body := Some body |} in
  let at_ path := (url =? sample_base ++ path)%string in
  if at_ "/operators/1" then ok john_smith
  else if at_ "/operators/1/lots" then ok (PyList [lot 10 "LOT001"; lot 11 "LOT002"])
  else if at_ "/operators" then ok (PyList [john_smith; mary_jones])
  else if at_ "/operators/department/Production" then ok (PyList [john_smith])
  else if at_ "/operators/department/Quality" then ok (PyList [mary_jones])
  else if String.prefix (sample_base ++ "/operators/department/") url then ok (PyList [])
  else if at_ "/operators/code/OP001" then ok john_smith
  else if at_ "/operators/500" then
    Responded {| status_code := 500; json_body := None |}
  else if at_ "/operators/504" then Failed ReadTimeout
  else Responded {| status_code := 404; json_body := None |}.

Definition sample_world : World :=
  {| network := fun _ req => sample_answer req;
     sent := [];
     clock := fun _ => "2024-05-01T12:00:00";
     clock_reads := 0 |}.

(** A server that answers every request with the same response. *)
Definition constant_world (r : Response) : World :=
  {| network := fun _ _ => Responded r;
     sent := [];
     clock := fun _ => "2024-05-01T12:00:00";
     clock_reads := 0 |}.

(** ** Vocabulary for the further properties *)

(** The world after one more reading of the clock. *)
Definition tick (w : World) : World :=
  {| network := network w; sent := sent w;
     clock := clock w; clock_reads := S (clock_reads w) |}.

(** The values [len] accepts. *)
Definition sized (v : value) : Prop :=
  match v with
  | PyList _ | PyDict _ | PyStr _ => True
  | _ => False
  end.


(** The endpoint [search_operators] turns to. *)
Definition search_path (department : option string) : string :=
  match effective department with
  | Some d => "/operators/department/" ++ d
  | None => "/operators"
  end.

(** Nothing is remembered between two calls: run a second time, [call]
    sends its request again, and its result is whatever the network says
    then. *)
Definition asks_again (call : IO value) (url : string) : Prop :=
  forall w : World,
    let w1 := world_after (call w) in
    sent (world_after (call w1)) = sent w ++ [get_request url; get_request url]
    /\ result_of (call w1) = fetched (get_request url) w1.

(** A server that answers the first request it sees with [first] and fails
    every later one with status 503. *)
Definition one_shot_world (first : value) : World :=
  {| network := fun history _ =>
                  match history with
                  | [] => Responded {| status_code := 200; json_body := Some first |}
                  | _ :: _ => Responded {| status_code := 503; json_body := None |}
                  end;
     sent := [];
     clock := fun _ => "2024-05-01T12:00:00";
     clock_reads := 0 |}.

(** * Properties *)

(** ** The request helper *)

(** One run of the helper, spelled out: the request is logged, and the
    network's outcome decides the result. *)
Lemma make_request_run method endpoint base_url json_data params timeout w :
  let req := request_for method
               (or_default DEFAULT_BASE_URL base_url ++ endpoint)%string
               json_data params (or_default DEFAULT_TIMEOUT timeout) in
  _make_request method endpoint base_url json_data params timeout w =
    (match network w (sent w) req with
     | Responded r =>
         if is_success r then Ok r else Raise (HTTPStatusError r)
     | Failed kind => Raise (RequestError kind)
     end,
     log_request req w).
Proof.
  cbv zeta. unfold _make_request, bind, client_request, raise_for_status, request_for.
  destruct (network w _ _) as [r | kind]; [ | reflexivity ].
  destruct (is_success r); reflexivity.
Qed.

Lemma is_success_2xx r : is_success r = true <-> 200 <= status_code r <= 299.
Proof. unfold is_success. rewrite andb_true_iff, !Z.leb_le. tauto. Qed.

(** C6.  For every method, path, base URL, optional body, optional query
    parameters and timeout, the helper issues exactly one request, to the
    URL obtained by concatenating base URL and path, carrying the headers
    Content-Type: application/json and Accept: application/json.  When the
    network answers with a response, the helper raises an HTTP status error
    holding that response (hence its status code) if and only if the status
    is outside 200..299, and returns the very same response otherwise.  An
    HTTP status error is raised in no other situation. *)
Theorem make_request_contract :
  forall (method endpoint base_url : string) (json_data params : option value)
         (timeout : Z) (w : World),
    let req := {| req_method := method;
                  req_url := (base_url ++ endpoint)%string;
                  req_json := json_data; req_params := params;
                  req_headers := [("Content-Type", "application/json");
                                  ("Accept", "application/json")];
                  req_timeout := timeout |} in
    let run := _make_request method endpoint (Some base_url) json_data params
                 (Some timeout) w in
    sent (world_after run) = sent w ++ [req]
    /\ (forall r, network w (sent w) req = Responded r ->
          (result_of run = Raise (HTTPStatusError r)
             <-> ~ (200 <= status_code r <= 299))
          /\ (200 <= status_code r <= 299 -> result_of run = Ok r))
    /\ (forall r, result_of run = Raise (HTTPStatusError r) ->
          network w (sent w) req = Responded r
          /\ ~ (200 <= status_code r <= 299)).
Proof.
  intros method endpoint base_url json_data params timeout w req run.
  assert (Hrun : run =
            (match network w (sent w) req with
             | Responded r =>
                 if is_success r then Ok r else Raise (HTTPStatusError r)
             | Failed kind => Raise (RequestError kind)
             end, log_request req w)).
  { subst run. rewrite make_request_run. reflexivity. }
  rewrite Hrun. unfold world_after, result_of. cbn [fst snd].
  split; [ reflexivity | split ].
  - intros r Hr. rewrite Hr.
    pose proof (is_success_2xx r) as H2xx.
    destruct (is_success r).
    + split; [ split | reflexivity ].
      * discriminate.
      * intros Hn. exfalso. apply Hn, H2xx. reflexivity.
    + assert (Hno : ~ (200 <= status_code r <= 299)).
      { intros H. apply H2xx in H. discriminate. }
      split; [ split; [ intros _; exact Hno | reflexivity ] | ].
      intros H. contradiction.
  - intros r Hraise.
    destruct (network w (sent w) req) as [r' | kind]; [ | discriminate ].
    pose proof (is_success_2xx r') as H2xx.
    destruct (is_success r'); [ discriminate | ].
    injection Hraise as ->.
    split; [ reflexivity | ].
    intros H. apply H2xx in H. discriminate.
Qed.

Lemma make_request_contract_witness :
  result_of (_make_request "GET" "/operators/1" (Some sample_base) None None
               (Some 30) sample_world)
    = Ok {| status_code := 200; json_body := Some john_smith |}
  /\ result_of (_make_request "GET" "/operators/999" (Some sample_base) None None
                  (Some 30) sample_world)
     = Raise (HTTPStatusError {| status_code := 404; json_body := None |}).
Proof.
  split.
  - apply (proj2 (proj1 (proj2 (make_request_contract "GET" "/operators/1"
                                  sample_base None None 30 sample_world))
                    {| status_code := 200; json_body := Some john_smith |}
                    eq_refl)).
    simpl. lia.
  - apply (proj1 (proj1 (proj2 (make_request_contract "GET" "/operators/999"
                                  sample_base None None 30 sample_world))
                    {| status_code := 404; json_body := None |}
                    eq_refl)).
    simpl. lia.
Defined.

(** ** The entity accessors *)

(** A GET through the helper followed by [response.json()]. *)
Lemma get_then_json_run endpoint base_url w :
  (response <- _make_request "GET" endpoint (Some base_url) None None None ;;
   json response) w =
  (fetched (get_request (base_url ++ endpoint)) w,
   log_request (get_request (base_url ++ endpoint)) w).
Proof.
  unfold bind at 1. rewrite make_request_run. cbv zeta. cbn [or_default].
  unfold fetched, get_request.
  destruct (network w _ _) as [r | kind]; [ | reflexivity ].
  destruct (is_success r); [ | reflexivity ].
  unfold json. destruct (json_body r); reflexivity.
Qed.

Lemma get_operator_by_id_run operator_id base_url w :
  let url := (or_default DEFAULT_BASE_URL base_url
              ++ "/operators/" ++ str_of_int operator_id)%string in
  get_operator_by_id operator_id base_url w =
    (fetched (get_request url) w, log_request (get_request url) w).
Proof. apply get_then_json_run. Qed.

Lemma get_all_operators_run base_url w :
  let url := (or_default DEFAULT_BASE_URL base_url ++ "/operators")%string in
  get_all_operators base_url w =
    (fetched (get_request url) w, log_request (get_request url) w).
Proof. apply get_then_json_run. Qed.

Lemma get_operator_lots_run operator_id base_url w :
  let url := (or_default DEFAULT_BASE_URL base_url
              ++ "/operators/" ++ str_of_int operator_id ++ "/lots")%string in
  get_operator_lots operator_id base_url w =
    (fetched (get_request url) w, log_request (get_request url) w).
Proof. apply get_then_json_run. Qed.

Lemma get_operators_by_department_run department base_url w :
  let url := (or_default DEFAULT_BASE_URL base_url
              ++ "/operators/department/" ++ department)%string in
  get_operators_by_department department base_url w =
    (fetched (get_request url) w, log_request (get_request url) w).
Proof. apply get_then_json_run. Qed.

Lemma get_operator_by_code_run code base_url w :
  let url := (or_default DEFAULT_BASE_URL base_url
              ++ "/operators/code/" ++ code)%string in
  get_operator_by_code code base_url w =
    (fetched (get_request url) w, log_request (get_request url) w).
Proof. apply get_then_json_run. Qed.

Lemma fetched_body req w r v :
  network w (sent w) req = Responded r ->
  200 <= status_code r <= 299 ->
  json_body r = Some v ->
  fetched req w = Ok v.
Proof.
  intros Hnet H2xx Hbody. unfold fetched. rewrite Hnet.
  apply is_success_2xx in H2xx. rewrite H2xx, Hbody. reflexivity.
Qed.

(** Any computation that runs as one logged GET is a forwarding accessor. *)
Lemma forwards_one_get_intro (call : IO value) url :
  (forall w, call w = (fetched (get_request url) w, log_request (get_request url) w)) ->
  forwards_one_get call url.
Proof.
  intros Hrun w. rewrite Hrun. unfold world_after, result_of. cbn [fst snd].
  repeat split.
  intros r v. apply fetched_body.
Qed.

(** The five accessors, endpoint by endpoint. *)
Lemma five_accessors_forward operator_id department code base_url :
  let base := or_default DEFAULT_BASE_URL base_url in
  forwards_one_get (get_operator_by_id operator_id base_url)
    (base ++ "/operators/" ++ str_of_int operator_id)%string
  /\ forwards_one_get (get_all_operators base_url)
       (base ++ "/operators")%string
  /\ forwards_one_get (get_operator_lots operator_id base_url)
       (base ++ "/operators/" ++ str_of_int operator_id ++ "/lots")%string
  /\ forwards_one_get (get_operators_by_department department base_url)
       (base ++ "/operators/department/" ++ department)%string
  /\ forwards_one_get (get_operator_by_code code base_url)
       (base ++ "/operators/code/" ++ code)%string.
Proof.
  cbv zeta.
  repeat apply conj; apply forwards_one_get_intro; intros w.
  - apply get_operator_by_id_run.
  - apply get_all_operators_run.
  - apply get_operator_lots_run.
  - apply get_operators_by_department_run.
  - apply get_operator_by_code_run.
Qed.

(** C7.  Each of the five entity accessors performs a single GET to its
    endpoint path under the base URL in force (the one passed, or the
    default one): /operators/{id}, /operators, /operators/{id}/lots,
    /operators/department/{department} and /operators/code/{code}; and it
    returns the decoded JSON body as received, of whatever shape. *)
Theorem accessors_forward_one_get :
  forall (operator_id : Z) (department code : string) (base_url : option string),
    let base := or_default DEFAULT_BASE_URL base_url in
    forwards_one_get (get_operator_by_id operator_id base_url)
      (base ++ "/operators/" ++ str_of_int operator_id)%string
    /\ forwards_one_get (get_all_operators base_url)
         (base ++ "/operators")%string
    /\ forwards_one_get (get_operator_lots operator_id base_url)
         (base ++ "/operators/" ++ str_of_int operator_id ++ "/lots")%string
    /\ forwards_one_get (get_operators_by_department department base_url)
         (base ++ "/operators/department/" ++ department)%string
    /\ forwards_one_get (get_operator_by_code code base_url)
         (base ++ "/operators/code/" ++ code)%string.
Proof.
  intros operator_id department code base_url base. subst base.
  repeat apply conj; apply forwards_one_get_intro; intros w.
  - apply get_operator_by_id_run.
  - apply get_all_operators_run.
  - apply get_operator_lots_run.
  - apply get_operators_by_department_run.
  - apply get_operator_by_code_run.
Qed.

Lemma accessors_forward_one_get_witness :
  result_of (get_all_operators (Some sample_base) sample_world)
    = Ok (PyList [john_smith; mary_jones])
  /\ result_of (get_operator_by_code "OP001" (Some sample_base) sample_world)
     = Ok john_smith.
Proof.
  pose proof (accessors_forward_one_get 1 "Production" "OP001" (Some sample_base))
    as (_ & Hall & _ & _ & Hcode).
  split.
  - apply (proj2 (proj2 (Hall sample_world))
             {| status_code := 200;
                json_body := Some (PyList [john_smith; mary_jones]) |});
      [ reflexivity | simpl; lia | reflexivity ].
  - apply (proj2 (proj2 (Hcode sample_world))
             {| status_code := 200; json_body := Some john_smith |});
      [ reflexivity | simpl; lia | reflexivity ].
Defined.

Lemma issues_one_get (call : IO value) url :
  forwards_one_get call url -> issues_one_request 30 call.
Proof.
  intros Hcall w. destruct (Hcall w) as [Hsent _].
  eexists. split; [ exact Hsent | reflexivity ].
Qed.

(** C9.  The helper's timeout is 30 when the caller passes none (and the
    caller's value otherwise), and it sends its request once: after the call
    the log of requests holds exactly one more entry, whatever the network
    did with it.  The five accessors pass no timeout, so each invocation
    issues exactly one request with timeout 30, be the outcome a response,
    an error status or a transport failure such as a timeout. *)
Theorem one_request_default_timeout :
  forall (operator_id : Z) (department code : string) (base_url : option string),
    (forall method endpoint json_data params,
        issues_one_request 30
          (_make_request method endpoint base_url json_data params None))
    /\ (forall method endpoint json_data params t,
          issues_one_request t
            (_make_request method endpoint base_url json_data params (Some t)))
    /\ issues_one_request 30 (get_operator_by_id operator_id base_url)
    /\ issues_one_request 30 (get_all_operators base_url)
    /\ issues_one_request 30 (get_operator_lots operator_id base_url)
    /\ issues_one_request 30 (get_operators_by_department department base_url)
    /\ issues_one_request 30 (get_operator_by_code code base_url).
Proof.
  intros operator_id department code base_url.
  destruct (five_accessors_forward operator_id department code base_url)
    as (Hid & Hall & Hlots & Hdept & Hcode).
  repeat apply conj; eauto using issues_one_get.
  - intros method endpoint json_data params w.
    rewrite make_request_run. cbv zeta. eexists. split; reflexivity.
  - intros method endpoint json_data params t w.
    rewrite make_request_run. cbv zeta. eexists. split; reflexivity.
Qed.

Lemma one_request_default_timeout_witness :
  exists req,
    sent (world_after (get_operator_by_id 504 (Some sample_base) sample_world))
      = [] ++ [req]
    /\ req_timeout req = 30.
Proof.
  exact (proj1 (proj2 (proj2 (one_request_default_timeout 504 "Production" "OP001"
                                (Some sample_base))))
           sample_world).
Defined.

(** C8.  When the server answers GET /operators/{id} with a successful
    response whose body is a record with operatorId = id, that is, when the
    id is known to the server, [get_operator_by_id] returns that record, and
    its id field equals the requested id. *)
Theorem get_operator_by_id_returns_requested_id :
  forall (operator_id : Z) (base_url : option string) (w : World)
         (r : Response) (operator : value),
    network w (sent w)
      (get_request (or_default DEFAULT_BASE_URL base_url
                    ++ "/operators/" ++ str_of_int operator_id)%string)
      = Responded r ->
    200 <= status_code r <= 299 ->
    json_body r = Some operator ->
    get operator "operatorId" = Ok (PyInt operator_id) ->
    exists record,
      result_of (get_operator_by_id operator_id base_url w) = Ok record
      /\ record = operator
      /\ get record "operatorId" = Ok (PyInt operator_id).
Proof.
  intros operator_id base_url w r operator Hnet H2xx Hbody Hid.
  exists operator. rewrite get_operator_by_id_run. cbv zeta.
  unfold result_of. cbn [fst].
  split; [ | split; [ reflexivity | exact Hid ] ].
  eapply fetched_body; eassumption.
Qed.

Lemma get_operator_by_id_returns_requested_id_witness :
  exists record,
    result_of (get_operator_by_id 1 (Some sample_base) sample_world) = Ok record
    /\ record = john_smith
    /\ get record "operatorId" = Ok (PyInt 1).
Proof.
  apply (get_operator_by_id_returns_requested_id 1 (Some sample_base) sample_world
           {| status_code := 200; json_body := Some john_smith |} john_smith).
  - reflexivity.
  - simpl. lia.
  - reflexivity.
  - reflexivity.
Defined.

(** ** safe_get_operator *)

Lemma get_operator_by_id_resolved operator_id base_url :
  get_operator_by_id operator_id (Some (or_default DEFAULT_BASE_URL base_url))
  = get_operator_by_id operator_id base_url.
Proof. destruct base_url; reflexivity. Qed.

(** The wrapper, outcome by outcome of the call it protects. *)
Lemma safe_get_operator_run operator_id base_url w :
  safe_get_operator operator_id base_url w =
    let run := get_operator_by_id operator_id base_url w in
    (match result_of run with
     | Ok v => Ok v
     | Raise (HTTPStatusError r) =>
         if status_code r =? 404 then Ok PyNone else Raise (HTTPStatusError r)
     | Raise (RequestError _) => Ok PyNone
     | Raise e => Raise e
     end,
     world_after run).
Proof.
  unfold safe_get_operator, try_except. cbv zeta.
  rewrite get_operator_by_id_resolved.
  unfold result_of, world_after.
  destruct (get_operator_by_id operator_id base_url w) as [[v | e] w']; cbn [fst snd].
  - reflexivity.
  - destruct e as [r | kind | | | ]; cbn [is_HTTPError]; try reflexivity.
    destruct (status_code r =? 404); reflexivity.
Qed.

Lemma safe_get_operator_result operator_id base_url w :
  result_of (safe_get_operator operator_id base_url w) =
    match result_of (get_operator_by_id operator_id base_url w) with
    | Ok v => Ok v
    | Raise (HTTPStatusError r) =>
        if status_code r =? 404 then Ok PyNone else Raise (HTTPStatusError r)
    | Raise (RequestError _) => Ok PyNone
    | Raise e => Raise e
    end.
Proof. rewrite safe_get_operator_run. reflexivity. Qed.

(** C1.  Whenever the call to [get_operator_by_id] fails with an HTTP status
    error whose code is 404, or with a transport-level error (a connection
    failure, a timeout, any error of the request family),
    [safe_get_operator] returns [None] instead of raising.  In particular it
    returns [None] when the server answers the lookup with status 404, and
    when the request fails in transit. *)
Theorem safe_get_operator_absent_on_404_or_transport_error :
  forall (operator_id : Z) (base_url : option string) (w : World),
    let url := (or_default DEFAULT_BASE_URL base_url
                ++ "/operators/" ++ str_of_int operator_id)%string in
    (forall e,
        result_of (get_operator_by_id operator_id base_url w) = Raise e ->
        (exists r, e = HTTPStatusError r /\ status_code r = 404)
        \/ (exists kind, e = RequestError kind) ->
        result_of (safe_get_operator operator_id base_url w) = Ok PyNone)
    /\ (forall r,
          network w (sent w) (get_request url) = Responded r ->
          status_code r = 404 ->
          result_of (safe_get_operator operator_id base_url w) = Ok PyNone)
    /\ (forall kind,
          network w (sent w) (get_request url) = Failed kind ->
          result_of (safe_get_operator operator_id base_url w) = Ok PyNone).
Proof.
  intros operator_id base_url w url.
  rewrite safe_get_operator_run. cbv zeta.
  rewrite get_operator_by_id_run. cbv zeta. fold url.
  unfold result_of, world_after. cbn [fst snd].
  repeat apply conj.
  - intros e He [(r & -> & H404) | (kind & ->)]; rewrite He.
    + rewrite H404. reflexivity.
    + reflexivity.
  - intros r Hnet H404. unfold fetched. rewrite Hnet.
    unfold is_success. rewrite H404. cbn. rewrite H404. reflexivity.
  - intros kind Hnet. unfold fetched. rewrite Hnet. reflexivity.
Qed.

Lemma safe_get_operator_absent_witness :
  result_of (safe_get_operator 999 (Some sample_base) sample_world) = Ok PyNone
  /\ result_of (safe_get_operator 504 (Some sample_base) sample_world) = Ok PyNone.
Proof.
  split.
  - apply (proj1 (proj2 (safe_get_operator_absent_on_404_or_transport_error
                           999 (Some sample_base) sample_world))
             {| status_code := 404; json_body := None |});
      reflexivity.
  - apply (proj2 (proj2 (safe_get_operator_absent_on_404_or_transport_error
                           504 (Some sample_base) sample_world))
             ReadTimeout);
      reflexivity.
Defined.

(** C10.  When the call to [get_operator_by_id] fails with an HTTP status
    error whose code is not 404 (500, say), [safe_get_operator] raises that
    same error again.  A failure of the call is turned into [None] only if
    it is a 404 status error or an error of the request (transport) family;
    every other exception leaves the wrapper as it came. *)
Theorem safe_get_operator_reraises_other_status_errors :
  forall (operator_id : Z) (base_url : option string) (w : World),
    (forall r,
        result_of (get_operator_by_id operator_id base_url w)
          = Raise (HTTPStatusError r) ->
        status_code r <> 404 ->
        result_of (safe_get_operator operator_id base_url w)
          = Raise (HTTPStatusError r))
    /\ (forall e,
          result_of (get_operator_by_id operator_id base_url w) = Raise e ->
          result_of (safe_get_operator operator_id base_url w) = Ok PyNone ->
          (exists r, e = HTTPStatusError r /\ status_code r = 404)
          \/ (exists kind, e = RequestError kind))
    /\ (forall e,
          result_of (get_operator_by_id operator_id base_url w) = Raise e ->
          result_of (safe_get_operator operator_id base_url w) = Ok PyNone
          \/ result_of (safe_get_operator operator_id base_url w) = Raise e).
Proof.
  intros operator_id base_url w.
  rewrite safe_get_operator_result.
  destruct (result_of (get_operator_by_id operator_id base_url w)) as [v | e0].
  { repeat apply conj; intros; discriminate. }
  repeat apply conj.
  - intros r [= ->] Hne.
    destruct (Z.eqb_spec (status_code r) 404); [ contradiction | reflexivity ].
  - intros e [= ->] Hnone.
    destruct e as [r | kind | | | ]; try discriminate.
    + left. exists r. split; [ reflexivity | ].
      destruct (Z.eqb_spec (status_code r) 404); [ assumption | discriminate ].
    + right. exists kind. reflexivity.
  - intros e [= ->].
    destruct e as [r | kind | | | ]; auto.
    destruct (status_code r =? 404); auto.
Qed.

Lemma safe_get_operator_reraises_witness :
  result_of (safe_get_operator 500 (Some sample_base) sample_world)
  = Raise (HTTPStatusError {| status_code := 500; json_body := None |}).
Proof.
  apply (proj1 (safe_get_operator_reraises_other_status_errors
                  500 (Some sample_base) sample_world)).
  - reflexivity.
  - simpl. lia.
Defined.

(** ** get_operator_summary *)

Lemma get_operator_lots_resolved operator_id base_url :
  get_operator_lots operator_id (Some (or_default DEFAULT_BASE_URL base_url))
  = get_operator_lots operator_id base_url.
Proof. destruct base_url; reflexivity. Qed.

(** The summary, step by step: two fetches, then the record is put together
    from [len(lots)], [operator.get("department")] and the clock. *)
Lemma get_operator_summary_result operator_id base_url w :
  result_of (get_operator_summary operator_id base_url w) =
    let first := get_operator_by_id operator_id base_url w in
    match result_of first with
    | Raise e => Raise e
    | Ok operator =>
        match result_of (get_operator_lots operator_id base_url (world_after first)) with
        | Raise e => Raise e
        | Ok lots =>
            match len lots with
            | Raise e => Raise e
            | Ok total =>
                match get operator "department" with
                | Raise e => Raise e
                | Ok department =>
                    Ok (PyDict [("operator", operator);
                                ("lots", lots);
                                ("total_lots", PyInt total);
                                ("departments", PyList [department]);
                                ("summary_generated_at",
                                 PyStr (clock w (clock_reads w)))])
                end
            end
        end
    end.
Proof.
  unfold get_operator_summary. cbv zeta.
  rewrite get_operator_by_id_resolved, get_operator_lots_resolved.
  unfold bind at 1.
  rewrite get_operator_by_id_run. cbv zeta.
  unfold result_of at 2, world_after. cbn [fst snd].
  destruct (fetched _ w) as [operator | e]; [ | reflexivity ].
  unfold bind at 1.
  rewrite get_operator_lots_run. cbv zeta.
  unfold result_of at 2. cbn [fst snd].
  destruct (fetched _ _) as [lots | e]; [ | reflexivity ].
  unfold bind, lift, now_isoformat, ret, result_of.
  destruct (len lots) as [total | e]; [ | reflexivity ].
  destruct (get operator "department") as [department | e]; reflexivity.
Qed.

(** C2.  When the fetch of the operator succeeds with an operator record
    and the fetch of its lots, made next, succeeds with a list of lots,
    [get_operator_summary] returns the record whose operator field is the
    fetched operator, whose lots field is the fetched list, whose total_lots
    field is the length of that list, whose departments field is the
    one-element list holding the operator's department, and whose
    summary_generated_at field is the clock reading.  And whatever the
    summary returned, its total_lots field equals the length of its lots
    field. *)
Theorem get_operator_summary_composite :
  forall (operator_id : Z) (base_url : option string) (w : World),
    let first := get_operator_by_id operator_id base_url w in
    let second := get_operator_lots operator_id base_url (world_after first) in
    (forall fields lots department,
        result_of first = Ok (PyDict fields) ->
        result_of second = Ok (PyList lots) ->
        get (PyDict fields) "department" = Ok department ->
        result_of (get_operator_summary operator_id base_url w) =
          Ok (PyDict [("operator", PyDict fields);
                      ("lots", PyList lots);
                      ("total_lots", PyInt (Z.of_nat (length lots)));
                      ("departments", PyList [department]);
                      ("summary_generated_at", PyStr (clock w (clock_reads w)))]))
    /\ (forall summary,
          result_of (get_operator_summary operator_id base_url w) = Ok summary ->
          exists lots total,
            get summary "lots" = Ok lots
            /\ len lots = Ok total
            /\ get summary "total_lots" = Ok (PyInt total)).
Proof.
  intros operator_id base_url w first second.
  rewrite get_operator_summary_result. cbv zeta. fold first. fold second.
  split.
  - intros fields lots department -> -> Hdept.
    cbn [len]. rewrite Hdept. reflexivity.
  - intros summary.
    destruct (result_of first) as [operator | e]; [ | discriminate ].
    destruct (result_of second) as [lots | e]; [ | discriminate ].
    destruct (len lots) as [total | e] eqn:Hlen; [ | discriminate ].
    destruct (get operator "department") as [department | e]; [ | discriminate ].
    intros [= <-]. exists lots, total. repeat split. exact Hlen.
Qed.

Lemma get_operator_summary_witness :
  result_of (get_operator_summary 1 (Some sample_base) sample_world) =
    Ok (PyDict [("operator", john_smith);
                ("lots", PyList [lot 10 "LOT001"; lot 11 "LOT002"]);
                ("total_lots", PyInt 2);
                ("departments", PyList [PyStr "Production"]);
                ("summary_generated_at", PyStr "2024-05-01T12:00:00")]).
Proof.
  apply (proj1 (get_operator_summary_composite 1 (Some sample_base) sample_world)
           _ [lot 10 "LOT001"; lot 11 "LOT002"] (PyStr "Production"));
    reflexivity.
Defined.

(** ** search_operators *)

Section Comprehension.

Variable keep : value -> Result bool.

(** A comprehension drops elements; it neither adds, changes nor
    reorders them. *)
Lemma comprehension_sublist items kept :
  comprehension keep items = Ok kept -> sublist kept items.
Proof.
  revert kept. induction items as [ | x rest IH ]; intros kept; cbn.
  - intros [= <-]. constructor.
  - destruct (keep x) as [b | e]; [ | discriminate ].
    destruct (comprehension keep rest) as [kept' | e]; [ | discriminate ].
    intros [= <-]. destruct b; constructor; apply IH; reflexivity.
Qed.

(** It keeps exactly the elements satisfying the condition. *)
Lemma comprehension_kept items kept :
  comprehension keep items = Ok kept ->
  Forall (fun x => keep x = Ok true) kept.
Proof.
  revert kept. induction items as [ | x rest IH ]; intros kept; cbn.
  - intros [= <-]. constructor.
  - destruct (keep x) as [b | e] eqn:Hx; [ | discriminate ].
    destruct (comprehension keep rest) as [kept' | e]; [ | discriminate ].
    intros [= <-]. specialize (IH kept' eq_refl).
    destruct b; [ constructor; assumption | assumption ].
Qed.

(** It raises only what the condition raises on some element. *)
Lemma comprehension_raises items e :
  comprehension keep items = Raise e ->
  Exists (fun x => keep x = Raise e) items.
Proof.
  induction items as [ | x rest IH ]; cbn; [ discriminate | ].
  destruct (keep x) as [b | e'] eqn:Hx.
  - destruct (comprehension keep rest) as [kept' | e'']; [ discriminate | ].
    intros [= ->]. apply Exists_cons_tl, IH. reflexivity.
  - intros [= ->]. apply Exists_cons_hd. exact Hx.
Qed.

End Comprehension.

Lemma has_status_on_dict status op :
  is_dict op -> has_status status op = Ok (status_is status op).
Proof. destruct op; cbn; intros H; try contradiction. reflexivity. Qed.

Lemma has_status_true status op :
  has_status status op = Ok true -> get op "status" = Ok (PyStr status).
Proof.
  unfold has_status. destruct (get op "status") as [v | e]; [ | discriminate ].
  intros [= Heq]. destruct v; cbn in Heq; try discriminate.
  apply String.eqb_eq in Heq. subst. reflexivity.
Qed.

Lemma has_status_raises status op e :
  has_status status op = Raise e -> e = AttributeError /\ ~ is_dict op.
Proof.
  destruct op; cbn; intros [= <-]; split; auto.
Qed.

(** On records the comprehension is the plain equality filter. *)
Lemma comprehension_has_status_filter status items :
  Forall is_dict items ->
  comprehension (has_status status) items = Ok (List.filter (status_is status) items).
Proof.
  induction 1 as [ | op rest Hop _ IH ]; cbn; [ reflexivity | ].
  rewrite (has_status_on_dict status op Hop), IH. reflexivity.
Qed.

Lemma get_all_operators_resolved base_url :
  get_all_operators (Some (or_default DEFAULT_BASE_URL base_url))
  = get_all_operators base_url.
Proof. destruct base_url; reflexivity. Qed.

Lemma get_operators_by_department_resolved department base_url :
  get_operators_by_department department (Some (or_default DEFAULT_BASE_URL base_url))
  = get_operators_by_department department base_url.
Proof. destruct base_url; reflexivity. Qed.

(** The code is the specified pipeline run on the arguments as its guards
    see them. *)
Lemma search_operators_effective department status base_url :
  search_operators department status base_url
  = search_operators_as_specified (effective department) (effective status) base_url.
Proof.
  unfold search_operators, search_operators_as_specified, effective. cbv zeta.
  rewrite get_all_operators_resolved.
  destruct department as [d | ], status as [s | ];
    try rewrite get_operators_by_department_resolved;
    try destruct (truthy d); try destruct (truthy s); reflexivity.
Qed.

(** The fetch made by the accessors never touches the result of filtering:
    [filter_by_status] is pure. *)
Lemma filter_by_status_run status operators w :
  filter_by_status status operators w =
    (match iterate operators with
     | Raise e => Raise e
     | Ok items =>
         match comprehension (has_status status) items with
         | Raise e => Raise e
         | Ok kept => Ok (PyList kept)
         end
     end, w).
Proof.
  unfold filter_by_status, bind, lift, ret.
  destruct (iterate operators) as [items | e]; [ | reflexivity ].
  destruct (comprehension _ items); reflexivity.
Qed.

Lemma search_operators_run department status base_url w :
  search_operators department status base_url w =
    let fetch := underlying_fetch department base_url w in
    match result_of fetch with
    | Raise e => (Raise e, world_after fetch)
    | Ok operators =>
        match effective status with
        | Some s => filter_by_status s operators (world_after fetch)
        | None => (Ok operators, world_after fetch)
        end
    end.
Proof.
  rewrite search_operators_effective.
  unfold search_operators_as_specified, underlying_fetch, bind, result_of, world_after.
  cbv zeta.
  destruct (effective department) as [d | ].
  - destruct (get_operators_by_department d base_url w) as [[operators | e] w'];
      cbn [fst snd]; [ | reflexivity ].
    destruct (effective status); reflexivity.
  - destruct (get_all_operators base_url w) as [[operators | e] w'];
      cbn [fst snd]; [ | reflexivity ].
    destruct (effective status); reflexivity.
Qed.

Lemma effective_nonempty s : s <> "" -> effective (Some s) = Some s.
Proof.
  intros Hs. unfold effective, truthy.
  destruct (String.eqb_spec s ""); [ contradiction | reflexivity ].
Qed.

Lemma effective_given arg : arg <> Some "" -> effective arg = arg.
Proof.
  destruct arg as [s | ]; [ | reflexivity ].
  intros Hs. apply effective_nonempty. congruence.
Qed.

(** C3, as the code has it.  For every department argument and every
    non-empty status argument, whatever [search_operators] returns is a list
    each of whose records has a status field equal to that status; so with
    status "Active" no record of another status is returned.  (An empty
    status string switches the filter off: see the counterexample.) *)
Theorem search_operators_status_respected :
  forall (department : option string) (status : string)
         (base_url : option string) (w : World) (result : value),
    status <> "" ->
    result_of (search_operators department (Some status) base_url w) = Ok result ->
    exists records,
      result = PyList records
      /\ Forall (fun op => get op "status" = Ok (PyStr status)) records.
Proof.
  intros department status base_url w result Hs.
  rewrite search_operators_run. cbv zeta.
  rewrite (effective_nonempty status Hs).
  destruct (result_of (underlying_fetch department base_url w)) as [operators | e];
    [ | discriminate ].
  rewrite filter_by_status_run. unfold result_of. cbn [fst].
  destruct (iterate operators) as [items | e]; [ | discriminate ].
  destruct (comprehension (has_status status) items) as [kept | e] eqn:Hkept;
    [ | discriminate ].
  intros [= <-]. exists kept. split; [ reflexivity | ].
  apply comprehension_kept in Hkept.
  eapply List.Forall_impl; [ | exact Hkept ].
  intros op. apply has_status_true.
Qed.

Lemma search_operators_status_respected_witness :
  "Active" <> ""
  /\ result_of (search_operators None (Some "Active") (Some sample_base) sample_world)
     = Ok (PyList [john_smith])
  /\ exists records,
       PyList [john_smith] = PyList records
       /\ Forall (fun op => get op "status" = Ok (PyStr "Active")) records.
Proof.
  split; [ discriminate | split; [ reflexivity | ] ].
  apply (search_operators_status_respected None "Active" (Some sample_base)
           sample_world (PyList [john_smith])).
  - discriminate.
  - reflexivity.
Defined.

(** C3 as stated fails for the empty status string: [status=""] is a status
    argument, yet the records returned keep their own, different status. *)
Lemma search_operators_empty_status_counterexample :
  result_of (search_operators None (Some "") (Some sample_base) sample_world)
    = Ok (PyList [john_smith; mary_jones])
  /\ ~ Forall (fun op => get op "status" = Ok (PyStr ""))
         [john_smith; mary_jones].
Proof.
  split; [ reflexivity | ].
  intros H. inversion H as [ | op rest Hjohn _ ]. discriminate Hjohn.
Qed.

(** C4, as the code has it.  [search_operators] fetches by department when
    a non-empty department is given and fetches all operators when the
    department is absent or empty; it then applies the in-memory equality
    filter on status exactly when a non-empty status is given.  So it is the
    specified pipeline on the arguments as the guards see them; it agrees
    with the pipeline on the arguments as passed whenever neither is the
    empty string; an empty string behaves like an absent argument; and on
    records the filter keeps, in order, those whose status equals the given
    one, without any further request. *)
Theorem search_operators_dispatch :
  forall (department status : option string) (base_url : option string),
    search_operators department status base_url
      = search_operators_as_specified (effective department) (effective status)
          base_url
    /\ (department <> Some "" -> status <> Some "" ->
        search_operators department status base_url
          = search_operators_as_specified department status base_url)
    /\ search_operators (Some "") status base_url
         = search_operators None status base_url
    /\ search_operators department (Some "") base_url
         = search_operators department None base_url
    /\ (forall s records w,
          Forall is_dict records ->
          filter_by_status s (PyList records) w
            = (Ok (PyList (List.filter (status_is s) records)), w)).
Proof.
  intros department status base_url. repeat apply conj.
  - apply search_operators_effective.
  - intros Hd Hs. rewrite search_operators_effective.
    rewrite (effective_given department Hd), (effective_given status Hs).
    reflexivity.
  - rewrite !search_operators_effective. reflexivity.
  - rewrite !search_operators_effective. reflexivity.
  - intros s records w Hrecords. rewrite filter_by_status_run. cbn [iterate].
    rewrite (comprehension_has_status_filter s records Hrecords). reflexivity.
Qed.

Lemma search_operators_dispatch_witness :
  result_of (search_operators (Some "Production") (Some "Active")
               (Some sample_base) sample_world)
  = result_of (search_operators_as_specified (Some "Production") (Some "Active")
                 (Some sample_base) sample_world).
Proof.
  rewrite (proj1 (proj2 (search_operators_dispatch (Some "Production")
                           (Some "Active") (Some sample_base))));
    [ reflexivity | discriminate | discriminate ].
Defined.

(** C4 as stated fails when an empty string is passed: with [department=""]
    the request goes to /operators, not to /operators/department/; with
    [status=""] no filter is applied although a status argument is given. *)
Lemma search_operators_empty_argument_counterexample :
  (sent (world_after (search_operators (Some "") None (Some sample_base) sample_world))
     = [get_request (sample_base ++ "/operators")]
   /\ sent (world_after (get_operators_by_department "" (Some sample_base) sample_world))
      = [get_request (sample_base ++ "/operators/department/")]
   /\ search_operators (Some "") None (Some sample_base) sample_world
      <> search_operators_as_specified (Some "") None (Some sample_base) sample_world)
  /\ (result_of (search_operators None (Some "") (Some sample_base) sample_world)
        = Ok (PyList [john_smith; mary_jones])
      /\ result_of (search_operators_as_specified None (Some "") (Some sample_base)
                      sample_world)
         = Ok (PyList [])
      /\ search_operators None (Some "") (Some sample_base) sample_world
         <> search_operators_as_specified None (Some "") (Some sample_base)
              sample_world).
Proof.
  split; (split; [ reflexivity | split; [ reflexivity | ] ]).
  - intros H. apply (f_equal result_of) in H. vm_compute in H. discriminate H.
  - intros H. apply (f_equal result_of) in H. vm_compute in H. discriminate H.
Qed.

(** C5, as the code has it.  Take the fetch [search_operators] builds on:
    by department when a non-empty department is given, all operators
    otherwise.  Whenever that fetch returns a list, [search_operators]
    either returns a subsequence of it (same elements, same order, nothing
    changed or added) after the same single request, or, when the status
    filter meets an element that is not a record, raises AttributeError.
    When the served elements are all records it does return; and an empty
    served list gives an empty list, without raising. *)
Theorem search_operators_subsequence :
  forall (department status : option string) (base_url : option string)
         (w : World) (served : list value),
    result_of (underlying_fetch department base_url w) = Ok (PyList served) ->
    world_after (search_operators department status base_url w)
      = world_after (underlying_fetch department base_url w)
    /\ ((exists kept,
           result_of (search_operators department status base_url w)
             = Ok (PyList kept)
           /\ sublist kept served)
        \/ (result_of (search_operators department status base_url w)
              = Raise AttributeError
            /\ Exists (fun op => ~ is_dict op) served))
    /\ (Forall is_dict served ->
        exists kept,
          result_of (search_operators department status base_url w)
            = Ok (PyList kept)
          /\ sublist kept served)
    /\ (served = [] ->
        result_of (search_operators department status base_url w)
          = Ok (PyList [])).
Proof.
  intros department status base_url w served Hfetch.
  rewrite search_operators_run. cbv zeta. rewrite Hfetch.
  destruct (effective status) as [s | ].
  - rewrite filter_by_status_run. unfold result_of, world_after. cbn [fst snd iterate].
    repeat apply conj.
    + reflexivity.
    + destruct (comprehension (has_status s) served) as [kept | e] eqn:Hkept.
      * left. exists kept. split; [ reflexivity | ].
        eapply comprehension_sublist; eassumption.
      * right. apply comprehension_raises in Hkept.
        assert (He : e = AttributeError).
        { apply List.Exists_exists in Hkept as (op & _ & Hop).
          apply has_status_raises in Hop. tauto. }
        subst e. split; [ reflexivity | ].
        eapply List.Exists_impl; [ | exact Hkept ].
        intros op Hop. apply has_status_raises in Hop. tauto.
    + intros Hdicts. rewrite (comprehension_has_status_filter s served Hdicts).
      eexists. split; [ reflexivity | ].
      eapply comprehension_sublist.
      apply (comprehension_has_status_filter s served Hdicts).
    + intros ->. reflexivity.
  - unfold result_of, world_after. cbn [fst snd].
    repeat apply conj.
    + reflexivity.
    + left. exists served. split; reflexivity.
    + intros _. exists served. split; reflexivity.
    + intros ->. reflexivity.
Qed.

Lemma search_operators_subsequence_witness :
  result_of (underlying_fetch (Some "Production") (Some sample_base) sample_world)
    = Ok (PyList [john_smith])
  /\ (exists kept,
        result_of (search_operators (Some "Production") (Some "Inactive")
                     (Some sample_base) sample_world)
          = Ok (PyList kept)
        /\ sublist kept [john_smith])
  /\ result_of (search_operators (Some "Engineering") (Some "Active")
                  (Some sample_base) sample_world)
     = Ok (PyList []).
Proof.
  split; [ reflexivity | split ].
  - apply (proj1 (proj2 (proj2
             (search_operators_subsequence (Some "Production") (Some "Inactive")
                (Some sample_base) sample_world [john_smith] eq_refl)))).
    repeat constructor.
  - apply (proj2 (proj2 (proj2
             (search_operators_subsequence (Some "Engineering") (Some "Active")
                (Some sample_base) sample_world [] eq_refl)))).
    reflexivity.
Defined.

(** C5 as stated fails for the empty department string: a department
    argument is given, yet what comes back is the list of all operators,
    which is no subsequence of what the fetch by department returns. *)
Lemma search_operators_empty_department_counterexample :
  exists served kept,
    result_of (get_operators_by_department "" (Some sample_base) sample_world)
      = Ok (PyList served)
    /\ result_of (search_operators (Some "") None (Some sample_base) sample_world)
       = Ok (PyList kept)
    /\ ~ sublist kept served.
Proof.
  exists [], [john_smith; mary_jones].
  split; [ reflexivity | split; [ reflexivity | ] ].
  intros H. inversion H.
Qed.

(** ** Scenarios *)

Example str_of_int_samples :
  str_of_int 1 = "1" /\ str_of_int 999 = "999" /\ str_of_int 0 = "0"
  /\ str_of_int (-7) = "-7".
Proof. repeat split. Qed.

(** A two-byte UTF-8 sequence is one character. *)
Example characters_utf8 :
  len (PyStr (String (ascii_of_nat 195) (String (ascii_of_nat 169) "ab"))) = Ok 3.
Proof. reflexivity. Qed.

(** The server answers 404 for /operators/999: the accessor raises the
    status error, the safe wrapper gives [None]. *)
Example unknown_operator :
  result_of (get_operator_by_id 999 (Some sample_base) sample_world)
    = Raise (HTTPStatusError {| status_code := 404; json_body := None |})
  /\ result_of (safe_get_operator 999 (Some sample_base) sample_world) = Ok PyNone.
Proof. split; reflexivity. Qed.

(** The summary makes its two requests in order, operator first. *)
Example summary_requests :
  sent (world_after (get_operator_summary 1 (Some sample_base) sample_world))
    = [get_request (sample_base ++ "/operators/1");
       get_request (sample_base ++ "/operators/1/lots")].
Proof. reflexivity. Qed.

(** Nothing is validated on the way in, so shapes matter later: a server
    that sends an array where an operator record is due makes the summary
    fail on [operator.get], and a status filter fails on an element that is
    not a record. *)
Example summary_of_a_non_record :
  let w := constant_world {| status_code := 200; json_body := Some (PyList []) |} in
  result_of (get_operator_by_id 1 None w) = Ok (PyList [])
  /\ result_of (get_operator_summary 1 None w) = Raise AttributeError.
Proof. split; reflexivity. Qed.

Example filter_of_non_records :
  let w := constant_world
             {| status_code := 200; json_body := Some (PyList [PyInt 1]) |} in
  result_of (search_operators None None None w) = Ok (PyList [PyInt 1])
  /\ result_of (search_operators None (Some "Active") None w) = Raise AttributeError.
Proof. split; reflexivity. Qed.

(** A body that is not JSON escapes the safe wrapper: JSONDecodeError is no
    httpx error. *)
Example undecodable_body :
  result_of (safe_get_operator 1 None
               (constant_world {| status_code := 200; json_body := None |}))
    = Raise JSONDecodeError.
Proof. reflexivity. Qed.

(** * Further properties *)

(** ** The request helper and the accessors *)




Lemma string_app_length (a b : string) :
  String.length (a ++ b) = (String.length a + String.length b)%nat.
Proof. induction a as [ | c a IH ]; cbn; [ reflexivity | rewrite IH; reflexivity ]. Qed.

Lemma string_app_inj_l (p a b : string) : (p ++ a = p ++ b)%string -> a = b.
Proof.
  induction p as [ | c p IH ]; cbn; [ trivial | ].
  intros [= H]. apply IH, H.
Qed.

Lemma string_app_inj_r (s a b : string) : (a ++ s = b ++ s)%string -> a = b.
Proof.
  revert b. induction a as [ | c a IH ]; intros [ | d b ]; cbn; intros H.
  - reflexivity.
  - apply (f_equal String.length) in H. cbn in H.
    rewrite string_app_length in H. lia.
  - apply (f_equal String.length) in H. cbn in H.
    rewrite string_app_length in H. lia.
  - injection H as -> H. f_equal. apply IH, H.
Qed.

(** Decimal formatting loses nothing: the text determines the number. *)
Lemma str_of_int_inj (a b : Z) : str_of_int a = str_of_int b -> a = b.
Proof.
  unfold str_of_int. intros H.
  assert (Hnorm : forall z, Z.to_int z <> Decimal.Pos Decimal.Nil
                            /\ Z.to_int z <> Decimal.Neg Decimal.Nil).
  { intros [ | p | p ]; cbn; split; try discriminate;
      intros [= Hp]; exact (Unsigned.to_uint_nonnil p Hp). }
  apply DecimalZ.to_int_inj.
  destruct (Hnorm a) as [Ha1 Ha2], (Hnorm b) as [Hb1 Hb2].
  pose proof (NilZero.isi _ Ha1 Ha2) as Ea.
  pose proof (NilZero.isi _ Hb1 Hb2) as Eb.
  rewrite H in Ea. rewrite Ea in Eb. injection Eb. trivial.
Qed.

(** X3.  Operator ids are written into the path in full: under one base
    URL, two different ids never lead to the same request, neither for the
    lookup by id nor for the lots of an operator. *)
Theorem operator_requests_distinct :
  forall (a b : Z) (base_url : option string) (w : World),
    a <> b ->
    sent (world_after (get_operator_by_id a base_url w))
      <> sent (world_after (get_operator_by_id b base_url w))
    /\ sent (world_after (get_operator_lots a base_url w))
       <> sent (world_after (get_operator_lots b base_url w)).
Proof.
  intros a b base_url w Hab.
  rewrite !get_operator_by_id_run, !get_operator_lots_run. cbv zeta.
  unfold world_after. cbn [snd log_request sent].
  split; intros H; apply Hab; apply app_inv_head in H; injection H as H;
    apply string_app_inj_l in H.
  - apply (string_app_inj_l "/operators/" (str_of_int a) (str_of_int b)) in H.
    apply str_of_int_inj, H.
  - apply (string_app_inj_l "/operators/" (str_of_int a ++ "/lots")
             (str_of_int b ++ "/lots")) in H.
    apply string_app_inj_r in H. apply str_of_int_inj, H.
Qed.

Lemma operator_requests_distinct_witness :
  1 <> 2
  /\ sent (world_after (get_operator_by_id 1 (Some sample_base) sample_world))
     <> sent (world_after (get_operator_by_id 2 (Some sample_base) sample_world))
  /\ sent (world_after (get_operator_lots 1 (Some sample_base) sample_world))
     <> sent (world_after (get_operator_lots 2 (Some sample_base) sample_world)).
Proof.
  split; [ lia | ].
  apply (operator_requests_distinct 1 2 (Some sample_base) sample_world). lia.
Defined.

(** ** get_operator_summary, step by step *)

(** The whole run of the summary, result and final world. *)
Lemma get_operator_summary_run operator_id base_url w :
  let base := or_default DEFAULT_BASE_URL base_url in
  let req1 := get_request (base ++ "/operators/" ++ str_of_int operator_id) in
  let req2 := get_request (base ++ "/operators/" ++ str_of_int operator_id ++ "/lots") in
  let w1 := log_request req1 w in
  let w2 := log_request req2 w1 in
  get_operator_summary operator_id base_url w =
    match fetched req1 w with
    | Raise e => (Raise e, w1)
    | Ok operator =>
        match fetched req2 w1 with
        | Raise e => (Raise e, w2)
        | Ok lots =>
            match len lots with
            | Raise e => (Raise e, w2)
            | Ok total =>
                match get operator "department" with
                | Raise e => (Raise e, w2)
                | Ok department =>
                    (Ok (PyDict [("operator", operator);
                                 ("lots", lots);
                                 ("total_lots", PyInt total);
                                 ("departments", PyList [department]);
                                 ("summary_generated_at",
                                  PyStr (clock w (clock_reads w)))]),
                     tick w2)
                end
            end
        end
    end.
Proof.
  cbv zeta. unfold get_operator_summary. cbv zeta.
  rewrite get_operator_by_id_resolved, get_operator_lots_resolved.
  unfold bind at 1. rewrite get_operator_by_id_run. cbv zeta.
  destruct (fetched _ w) as [operator | e]; [ | reflexivity ].
  unfold bind at 1. rewrite get_operator_lots_run. cbv zeta.
  destruct (fetched _ _) as [lots | e]; [ | reflexivity ].
  unfold bind, lift, now_isoformat, ret, tick.
  destruct (len lots) as [total | e]; [ | reflexivity ].
  destruct (get operator "department") as [department | e]; reflexivity.
Qed.

Lemma len_nonneg v total : len v = Ok total -> 0 <= total.
Proof. destruct v; cbn; intros [= <-]; lia. Qed.

Lemma len_sized v : sized v <-> exists total, len v = Ok total.
Proof.
  destruct v; cbn; split; try tauto; try (intros [total H]; discriminate);
    intros _; eexists; reflexivity.
Qed.

Lemma len_raises v e : len v = Raise e -> e = TypeError /\ ~ sized v.
Proof. destruct v; cbn; intros [= <-]; auto. Qed.

Lemma get_raises v key e : get v key = Raise e -> e = AttributeError /\ ~ is_dict v.
Proof. destruct v; cbn; intros [= <-]; auto. Qed.

Lemma get_on_dict v key : is_dict v -> exists x, get v key = Ok x.
Proof. destruct v; cbn; intros H; try contradiction. eexists. reflexivity. Qed.

(** X4.  If the lookup of the operator fails, the summary fails with the
    very same exception, the lots are never requested (the operator request
    is the only one sent), and the clock is not read. *)
Theorem get_operator_summary_stops_at_operator :
  forall (operator_id : Z) (base_url : option string) (w : World) (e : Exn),
    result_of (get_operator_by_id operator_id base_url w) = Raise e ->
    result_of (get_operator_summary operator_id base_url w) = Raise e
    /\ sent (world_after (get_operator_summary operator_id base_url w))
       = sent w ++ [get_request (or_default DEFAULT_BASE_URL base_url
                                 ++ "/operators/" ++ str_of_int operator_id)]
    /\ clock_reads (world_after (get_operator_summary operator_id base_url w))
       = clock_reads w.
Proof.
  intros operator_id base_url w e.
  rewrite get_operator_by_id_run, get_operator_summary_run. cbv zeta.
  unfold result_of at 1. cbn [fst].
  intros ->. repeat split.
Qed.

Lemma get_operator_summary_stops_at_operator_witness :
  result_of (get_operator_summary 999 (Some sample_base) sample_world)
    = Raise (HTTPStatusError {| status_code := 404; json_body := None |})
  /\ sent (world_after (get_operator_summary 999 (Some sample_base) sample_world))
     = [] ++ [get_request (sample_base ++ "/operators/999")]
  /\ clock_reads (world_after (get_operator_summary 999 (Some sample_base) sample_world))
     = 0%nat.
Proof.
  apply (get_operator_summary_stops_at_operator 999 (Some sample_base) sample_world).
  reflexivity.
Defined.

(** X5.  If the operator is found but the fetch of its lots fails, the
    summary fails with that exception after exactly two requests, operator
    first and lots second, and the clock is not read: no partial summary is
    ever returned. *)
Theorem get_operator_summary_stops_at_lots :
  forall (operator_id : Z) (base_url : option string) (w : World)
         (operator : value) (e : Exn),
    let first := get_operator_by_id operator_id base_url w in
    let base := or_default DEFAULT_BASE_URL base_url in
    result_of first = Ok operator ->
    result_of (get_operator_lots operator_id base_url (world_after first)) = Raise e ->
    result_of (get_operator_summary operator_id base_url w) = Raise e
    /\ sent (world_after (get_operator_summary operator_id base_url w))
       = sent w
         ++ [get_request (base ++ "/operators/" ++ str_of_int operator_id);
             get_request (base ++ "/operators/" ++ str_of_int operator_id ++ "/lots")]
    /\ clock_reads (world_after (get_operator_summary operator_id base_url w))
       = clock_reads w.
Proof.
  intros operator_id base_url w operator e first base. subst first base.
  rewrite get_operator_summary_run. cbv zeta.
  rewrite get_operator_by_id_run. cbv zeta.
  unfold result_of at 1, world_after at 1. cbn [fst snd].
  intros ->.
  rewrite get_operator_lots_run. cbv zeta. unfold result_of at 1. cbn [fst].
  intros ->. unfold result_of, world_after. cbn [fst snd log_request sent clock_reads].
  rewrite <- app_assoc. repeat split.
Qed.

Lemma get_operator_summary_stops_at_lots_witness :
  result_of (get_operator_summary 1 None (one_shot_world john_smith))
    = Raise (HTTPStatusError {| status_code := 503; json_body := None |})
  /\ sent (world_after (get_operator_summary 1 None (one_shot_world john_smith)))
     = [] ++ [get_request (DEFAULT_BASE_URL ++ "/operators/" ++ str_of_int 1);
              get_request (DEFAULT_BASE_URL ++ "/operators/" ++ str_of_int 1 ++ "/lots")]
  /\ clock_reads (world_after (get_operator_summary 1 None (one_shot_world john_smith)))
     = 0%nat.
Proof.
  apply (get_operator_summary_stops_at_lots 1 None (one_shot_world john_smith)
           john_smith); reflexivity.
Defined.

(** X6.  The summary sends one or two requests and never more, the
    operator request first.  When it returns, both requests were sent, in
    that order, the clock was read exactly once, and the timestamp in the
    summary is that reading; when it raises, the clock was not read. *)
Theorem get_operator_summary_traffic :
  forall (operator_id : Z) (base_url : option string) (w : World),
    let base := or_default DEFAULT_BASE_URL base_url in
    let req1 := get_request (base ++ "/operators/" ++ str_of_int operator_id) in
    let req2 := get_request (base ++ "/operators/" ++ str_of_int operator_id ++ "/lots") in
    let run := get_operator_summary operator_id base_url w in
    (sent (world_after run) = sent w ++ [req1]
     \/ sent (world_after run) = sent w ++ [req1; req2])
    /\ (forall summary,
          result_of run = Ok summary ->
          sent (world_after run) = sent w ++ [req1; req2]
          /\ clock_reads (world_after run) = S (clock_reads w)
          /\ get summary "summary_generated_at" = Ok (PyStr (clock w (clock_reads w))))
    /\ (forall e,
          result_of run = Raise e ->
          clock_reads (world_after run) = clock_reads w).
Proof.
  intros operator_id base_url w base req1 req2 run. subst run.
  rewrite get_operator_summary_run. cbv zeta. fold base. fold req1. fold req2.
  assert (Htwo : (sent w ++ [req1]) ++ [req2] = sent w ++ [req1; req2]).
  { rewrite <- app_assoc. reflexivity. }
  destruct (fetched req1 w) as [operator | e1].
  2: { unfold result_of, world_after; cbn [fst snd log_request sent clock_reads].
       split; [ left; reflexivity | split; [ discriminate | reflexivity ] ]. }
  destruct (fetched req2 (log_request req1 w)) as [lots | e2].
  2: { unfold result_of, world_after; cbn [fst snd log_request sent clock_reads].
       split; [ right; exact Htwo | split; [ discriminate | reflexivity ] ]. }
  destruct (len lots) as [total | e3].
  2: { unfold result_of, world_after; cbn [fst snd log_request sent clock_reads].
       split; [ right; exact Htwo | split; [ discriminate | reflexivity ] ]. }
  destruct (get operator "department") as [department | e4].
  2: { unfold result_of, world_after; cbn [fst snd log_request sent clock_reads].
       split; [ right; exact Htwo | split; [ discriminate | reflexivity ] ]. }
  unfold result_of, world_after; cbn [fst snd tick log_request sent clock_reads].
  split; [ right; exact Htwo | split; [ | discriminate ] ].
  intros summary [= <-]. split; [ exact Htwo | split; reflexivity ].
Qed.

Lemma get_operator_summary_traffic_witness :
  sent (world_after (get_operator_summary 1 (Some sample_base) sample_world))
    = [] ++ [get_request (sample_base ++ "/operators/" ++ str_of_int 1);
             get_request (sample_base ++ "/operators/" ++ str_of_int 1 ++ "/lots")]
  /\ clock_reads (world_after (get_operator_summary 1 (Some sample_base) sample_world))
     = 1%nat.
Proof.
  destruct (proj1 (proj2 (get_operator_summary_traffic 1 (Some sample_base)
                            sample_world))
              _ eq_refl) as (Hsent & Hclock & _).
  split; [ exact Hsent | exact Hclock ].
Defined.

(** X7.  Once both fetches have succeeded, the summary returns exactly when
    the operator is a JSON object and the lots are an array, an object or a
    string.  Lots without a length (null, a boolean, a number) give
    TypeError, whatever the operator is; otherwise an operator that is not
    an object gives AttributeError. *)
Theorem get_operator_summary_succeeds_iff :
  forall (operator_id : Z) (base_url : option string) (w : World)
         (operator lots : value),
    let first := get_operator_by_id operator_id base_url w in
    let run := get_operator_summary operator_id base_url w in
    result_of first = Ok operator ->
    result_of (get_operator_lots operator_id base_url (world_after first)) = Ok lots ->
    ((exists summary, result_of run = Ok summary) <-> is_dict operator /\ sized lots)
    /\ (~ sized lots -> result_of run = Raise TypeError)
    /\ (sized lots -> ~ is_dict operator -> result_of run = Raise AttributeError).
Proof.
  intros operator_id base_url w operator lots first run Hfirst Hsecond.
  subst first run. rewrite get_operator_summary_result. cbv zeta.
  rewrite Hfirst, Hsecond.
  destruct (len lots) as [total | e] eqn:Hlen.
  - assert (Hsized : sized lots) by (apply len_sized; eauto).
    destruct (get operator "department") as [department | e] eqn:Hget.
    + assert (Hdict : is_dict operator).
      { destruct operator; cbn in Hget; try discriminate. exact I. }
      split; [ split; [ auto | intros _; eexists; reflexivity ] | ].
      split; [ intros H; contradiction | intros _ H; contradiction ].
    + apply get_raises in Hget as [-> Hnot].
      split; [ split; [ intros [s H]; discriminate | intros [H _]; contradiction ] | ].
      split; [ intros H; contradiction | reflexivity ].
  - apply len_raises in Hlen as [-> Hnot].
    split; [ split; [ intros [s H]; discriminate | intros [_ H]; contradiction ] | ].
    split; [ reflexivity | intros H; contradiction ].
Qed.

Lemma get_operator_summary_succeeds_iff_witness :
  let w := constant_world {| status_code := 200; json_body := Some (PyList []) |} in
  result_of (get_operator_summary 1 None w) = Raise AttributeError.
Proof.
  cbv zeta.
  apply (proj2 (proj2 (get_operator_summary_succeeds_iff 1 None
                         (constant_world
                            {| status_code := 200; json_body := Some (PyList []) |})
                         (PyList []) (PyList []) eq_refl eq_refl))).
  - exact I.
  - intros H. exact H.
Defined.

(** X8.  Whatever summary is returned is a dict with exactly the five keys
    operator, lots, total_lots, departments and summary_generated_at, in
    this order; its operator is a JSON object, its departments list has
    exactly one element, and its total_lots is a non-negative integer. *)
Theorem get_operator_summary_shape :
  forall (operator_id : Z) (base_url : option string) (w : World) (summary : value),
    result_of (get_operator_summary operator_id base_url w) = Ok summary ->
    exists operator lots total department stamp,
      summary = PyDict [("operator", operator);
                        ("lots", lots);
                        ("total_lots", PyInt total);
                        ("departments", PyList [department]);
                        ("summary_generated_at", PyStr stamp)]
      /\ is_dict operator
      /\ get operator "department" = Ok department
      /\ 0 <= total.
Proof.
  intros operator_id base_url w summary.
  rewrite get_operator_summary_result. cbv zeta.
  destruct (result_of (get_operator_by_id operator_id base_url w))
    as [operator | e]; [ | discriminate ].
  destruct (result_of (get_operator_lots operator_id base_url _))
    as [lots | e]; [ | discriminate ].
  destruct (len lots) as [total | e] eqn:Hlen; [ | discriminate ].
  destruct (get operator "department") as [department | e] eqn:Hget;
    [ | discriminate ].
  intros [= <-]. exists operator, lots, total, department, (clock w (clock_reads w)).
  split; [ reflexivity | split; [ | split; [ exact Hget | ] ] ].
  - destruct operator; cbn in Hget; try discriminate. exact I.
  - eapply len_nonneg; eassumption.
Qed.

Lemma get_operator_summary_shape_witness :
  exists operator lots total department stamp,
    PyDict [("operator", john_smith);
            ("lots", PyList [lot 10 "LOT001"; lot 11 "LOT002"]);
            ("total_lots", PyInt 2);
            ("departments", PyList [PyStr "Production"]);
            ("summary_generated_at", PyStr "2024-05-01T12:00:00")]
    = PyDict [("operator", operator);
              ("lots", lots);
              ("total_lots", PyInt total);
              ("departments", PyList [department]);
              ("summary_generated_at", PyStr stamp)]
    /\ is_dict operator
    /\ get operator "department" = Ok department
    /\ 0 <= total.
Proof.
  apply (get_operator_summary_shape 1 (Some sample_base) sample_world).
  reflexivity.
Defined.

(** X9.  An operator record without a department field does not make the
    summary fail: the departments list then holds the single element
    [None]. *)
Theorem get_operator_summary_missing_department :
  forall (operator_id : Z) (base_url : option string) (w : World)
         (fields : list (string * value)) (lots : value) (total : Z),
    let first := get_operator_by_id operator_id base_url w in
    result_of first = Ok (PyDict fields) ->
    assoc "department" fields = None ->
    result_of (get_operator_lots operator_id base_url (world_after first)) = Ok lots ->
    len lots = Ok total ->
    exists summary,
      result_of (get_operator_summary operator_id base_url w) = Ok summary
      /\ get summary "departments" = Ok (PyList [PyNone])
      /\ get summary "operator" = Ok (PyDict fields).
Proof.
  intros operator_id base_url w fields lots total first Hfirst Hmissing Hsecond Hlen.
  subst first. rewrite get_operator_summary_result. cbv zeta.
  rewrite Hfirst, Hsecond, Hlen. cbn [get]. rewrite Hmissing.
  eexists. split; [ reflexivity | split; reflexivity ].
Qed.

Lemma get_operator_summary_missing_department_witness :
  let w := constant_world {| status_code := 200; json_body := Some (PyDict []) |} in
  exists summary,
    result_of (get_operator_summary 7 None w) = Ok summary
    /\ get summary "departments" = Ok (PyList [PyNone])
    /\ get summary "operator" = Ok (PyDict []).
Proof.
  cbv zeta.
  apply (get_operator_summary_missing_department 7 None
           (constant_world {| status_code := 200; json_body := Some (PyDict []) |})
           [] (PyDict []) 0); reflexivity.
Defined.

(** ** safe_get_operator, completed *)

(** X10.  [safe_get_operator] returns [None] in exactly three situations:
    the lookup itself returned [None] (a JSON null body), it raised a status
    error with code 404, or it raised a request error.  Every value the
    lookup returns is passed on unchanged, so a result other than [None] is
    always the operator the server sent. *)
Theorem safe_get_operator_none_iff :
  forall (operator_id : Z) (base_url : option string) (w : World),
    let fetch := result_of (get_operator_by_id operator_id base_url w) in
    let safe := result_of (safe_get_operator operator_id base_url w) in
    (safe = Ok PyNone
       <-> fetch = Ok PyNone
           \/ (exists r, fetch = Raise (HTTPStatusError r) /\ status_code r = 404)
           \/ (exists kind, fetch = Raise (RequestError kind)))
    /\ (forall v, fetch = Ok v -> safe = Ok v)
    /\ (forall v, safe = Ok v -> v <> PyNone -> fetch = Ok v).
Proof.
  intros operator_id base_url w fetch safe. subst safe.
  rewrite safe_get_operator_result. fold fetch.
  destruct fetch as [v0 | e].
  - split; [ | split ].
    + split.
      * intros H. left. exact H.
      * intros [H | [(r & H & _) | (kind & H)]]; [ exact H | discriminate | discriminate ].
    + intros v H. exact H.
    + intros v H _. exact H.
  - destruct e as [r | kind | | | ].
    + destruct (Z.eqb_spec (status_code r) 404) as [H404 | Hne].
      * split; [ | split ].
        -- split; [ intros _; right; left; exists r; auto | reflexivity ].
        -- discriminate.
        -- intros v [= <-] Hv. contradiction.
      * split; [ | split ]; try discriminate.
        split; [ discriminate | ].
        intros [H | [(r' & [= <-] & H404) | (kind & H)]];
          [ discriminate | contradiction | discriminate ].
    + split; [ | split ].
      * split; [ intros _; right; right; exists kind; reflexivity | reflexivity ].
      * discriminate.
      * intros v [= <-] Hv. contradiction.
    + split; [ | split ]; try discriminate.
      split; [ discriminate | ].
      intros [H | [(r & H & _) | (kind & H)]]; discriminate.
    + split; [ | split ]; try discriminate.
      split; [ discriminate | ].
      intros [H | [(r & H & _) | (kind & H)]]; discriminate.
    + split; [ | split ]; try discriminate.
      split; [ discriminate | ].
      intros [H | [(r & H & _) | (kind & H)]]; discriminate.
Qed.

Lemma safe_get_operator_none_iff_witness :
  result_of (safe_get_operator 1 None
               (constant_world {| status_code := 200; json_body := Some PyNone |}))
    = Ok PyNone
  /\ result_of (safe_get_operator 1 (Some sample_base) sample_world) = Ok john_smith.
Proof.
  split.
  - apply (proj1 (safe_get_operator_none_iff 1 None
                    (constant_world
                       {| status_code := 200; json_body := Some PyNone |}))).
    left. reflexivity.
  - apply (proj1 (proj2 (safe_get_operator_none_iff 1 (Some sample_base)
                           sample_world))).
    reflexivity.
Defined.

(** X11.  The safe wrapper adds no traffic and never tries again: whether
    the lookup succeeds, is answered 404 or fails in transit, the world
    after [safe_get_operator] is the world after the one lookup, with the
    single request for /operators/{id} in the log. *)
Theorem safe_get_operator_single_request :
  forall (operator_id : Z) (base_url : option string) (w : World),
    world_after (safe_get_operator operator_id base_url w)
      = world_after (get_operator_by_id operator_id base_url w)
    /\ sent (world_after (safe_get_operator operator_id base_url w))
       = sent w ++ [get_request (or_default DEFAULT_BASE_URL base_url
                                 ++ "/operators/" ++ str_of_int operator_id)].
Proof.
  intros operator_id base_url w.
  rewrite safe_get_operator_run. cbv zeta.
  rewrite get_operator_by_id_run. cbv zeta.
  unfold world_after. cbn [snd]. split; reflexivity.
Qed.

(** ** search_operators, completed *)

Lemma underlying_fetch_run department base_url w :
  let req := get_request (or_default DEFAULT_BASE_URL base_url
                          ++ search_path department) in
  underlying_fetch department base_url w = (fetched req w, log_request req w).
Proof.
  cbv zeta. unfold underlying_fetch, search_path.
  destruct (effective department) as [d | ].
  - apply get_operators_by_department_run.
  - apply get_all_operators_run.
Qed.

Lemma search_operators_world department status base_url w :
  world_after (search_operators department status base_url w)
  = world_after (underlying_fetch department base_url w).
Proof.
  rewrite search_operators_run. cbv zeta.
  destruct (result_of (underlying_fetch department base_url w)) as [operators | e];
    [ | reflexivity ].
  destruct (effective status) as [s | ]; [ | reflexivity ].
  rewrite filter_by_status_run. reflexivity.
Qed.

(** X12.  Whatever its arguments and whatever the server does,
    [search_operators] sends exactly one request: a GET without body or
    query parameters to /operators/department/{department} when a non-empty
    department is given, to /operators otherwise.  The status is never sent
    to the server, and the clock is not read. *)
Theorem search_operators_single_request :
  forall (department status : option string) (base_url : option string) (w : World),
    let run := search_operators department status base_url w in
    sent (world_after run)
      = sent w ++ [ {| req_method := "GET";
                       req_url := or_default DEFAULT_BASE_URL base_url
                                  ++ search_path department;
                       req_json := None; req_params := None;
                       req_headers := JSON_HEADERS; req_timeout := 30 |} ]
    /\ clock_reads (world_after run) = clock_reads w.
Proof.
  intros department status base_url w run. subst run.
  rewrite search_operators_world, underlying_fetch_run. cbv zeta.
  split; reflexivity.
Qed.

(** X13.  An error of the underlying fetch is never turned into an empty
    result: whatever the status argument, [search_operators] raises the
    exception the fetch raised (a 404 for a department without operators, a
    timeout, ...). *)
Theorem search_operators_propagates_errors :
  forall (department status : option string) (base_url : option string)
         (w : World) (e : Exn),
    result_of (underlying_fetch department base_url w) = Raise e ->
    result_of (search_operators department status base_url w) = Raise e.
Proof.
  intros department status base_url w e Hfetch.
  rewrite search_operators_run. cbv zeta. rewrite Hfetch. reflexivity.
Qed.

Lemma search_operators_propagates_errors_witness :
  result_of (get_operators_by_department "Engineering" None sample_world)
    = Raise (HTTPStatusError {| status_code := 404; json_body := None |})
  /\ result_of (search_operators (Some "Engineering") (Some "Active") None sample_world)
     = Raise (HTTPStatusError {| status_code := 404; json_body := None |}).
Proof.
  split; [ reflexivity | ].
  apply (search_operators_propagates_errors (Some "Engineering") (Some "Active")
           None sample_world).
  reflexivity.
Defined.

Lemma bind_ret_run {A} (m : IO A) w : (x <- m ;; ret x) w = m w.
Proof. unfold bind, ret. destruct (m w) as [[a | e] w']; reflexivity. Qed.

(** X14.  Without a status, or with the empty string as status,
    [search_operators] is the accessor itself, result and requests alike:
    [get_all_operators] when no department (or an empty one) is given,
    [get_operators_by_department] for a non-empty department.  The body
    comes back untouched, whatever its shape. *)
Theorem search_operators_without_status :
  forall (status : option string) (base_url : option string) (w : World),
    status = None \/ status = Some "" ->
    search_operators None status base_url w = get_all_operators base_url w
    /\ search_operators (Some "") status base_url w = get_all_operators base_url w
    /\ (forall d, d <> "" ->
          search_operators (Some d) status base_url w
            = get_operators_by_department d base_url w).
Proof.
  intros status base_url w Hgiven.
  assert (Hstatus : effective status = None)
    by (destruct Hgiven as [-> | ->]; reflexivity).
  rewrite !search_operators_effective, Hstatus.
  unfold search_operators_as_specified. cbn [effective truthy String.eqb negb].
  split; [ apply bind_ret_run | split; [ apply bind_ret_run | ] ].
  intros d Hd. rewrite search_operators_effective, Hstatus.
  rewrite (effective_nonempty d Hd). apply bind_ret_run.
Qed.

Lemma search_operators_without_status_witness :
  search_operators None (Some "") (Some sample_base) sample_world
    = get_all_operators (Some sample_base) sample_world
  /\ search_operators (Some "Quality") None (Some sample_base) sample_world
     = get_operators_by_department "Quality" (Some sample_base) sample_world.
Proof.
  split.
  - apply (proj1 (search_operators_without_status (Some "") (Some sample_base)
                    sample_world (or_intror eq_refl))).
  - apply (proj2 (proj2 (search_operators_without_status None (Some sample_base)
                           sample_world (or_introl eq_refl)))).
    discriminate.
Defined.

Lemma has_status_status_is status op b :
  has_status status op = Ok b -> status_is status op = b.
Proof.
  unfold has_status, status_is.
  destruct (get op "status"); [ intros [= <-]; reflexivity | discriminate ].
Qed.

(** Whenever the comprehension returns, it returned the equality filter. *)
Lemma comprehension_is_filter status items kept :
  comprehension (has_status status) items = Ok kept ->
  kept = List.filter (status_is status) items.
Proof.
  revert kept. induction items as [ | op rest IH ]; intros kept; cbn.
  - intros [= <-]. reflexivity.
  - destruct (has_status status op) as [b | e] eqn:Hop; [ | discriminate ].
    destruct (comprehension (has_status status) rest) as [kept' | e];
      [ | discriminate ].
    intros [= <-]. rewrite (has_status_status_is _ _ _ Hop), (IH kept' eq_refl).
    destruct b; reflexivity.
Qed.

(** X15.  Searching with a status is searching without it and then keeping
    the matching records: from the same starting point, the list returned
    for a non-empty status is the list returned without status, restricted
    to the records whose status equals it.  No matching record is lost, and
    the result is never longer than the unfiltered one. *)
Theorem search_operators_filters_search :
  forall (department : option string) (status : string) (base_url : option string)
         (w : World) (served kept : list value),
    status <> "" ->
    result_of (search_operators department None base_url w) = Ok (PyList served) ->
    result_of (search_operators department (Some status) base_url w)
      = Ok (PyList kept) ->
    kept = List.filter (status_is status) served
    /\ (forall op, In op served -> get op "status" = Ok (PyStr status) -> In op kept)
    /\ (length kept <= length served)%nat.
Proof.
  intros department status base_url w served kept Hs.
  rewrite !search_operators_run. cbv zeta.
  rewrite (effective_nonempty status Hs). cbn [effective].
  destruct (result_of (underlying_fetch department base_url w)) as [operators | e];
    [ | discriminate ].
  unfold result_of at 1. cbn [fst]. intros [= ->].
  rewrite filter_by_status_run. unfold result_of. cbn [fst iterate].
  destruct (comprehension (has_status status) served) as [kept' | e] eqn:Hkept;
    [ | discriminate ].
  intros [= ->].
  pose proof (comprehension_is_filter _ _ _ Hkept) as ->.
  split; [ reflexivity | split ].
  - intros op Hin Hop. apply List.filter_In. split; [ exact Hin | ].
    unfold status_is. rewrite Hop. cbn. apply String.eqb_refl.
  - apply List.filter_length_le.
Qed.

Lemma search_operators_filters_search_witness :
  "Inactive" <> ""
  /\ [mary_jones] = List.filter (status_is "Inactive") [john_smith; mary_jones]
  /\ (forall op, In op [john_smith; mary_jones] ->
        get op "status" = Ok (PyStr "Inactive") -> In op [mary_jones])
  /\ (length [mary_jones] <= length [john_smith; mary_jones])%nat.
Proof.
  split; [ discriminate | ].
  apply (search_operators_filters_search None "Inactive" (Some sample_base)
           sample_world [john_smith; mary_jones] [mary_jones]).
  - discriminate.
  - reflexivity.
  - reflexivity.
Defined.

Lemma characters_nonempty c rest :
  exists first others, characters (String c rest) = first :: others.
Proof.
  cbn. destruct rest as [ | d rest' ]; [ eexists _, _; reflexivity | ].
  destruct (characters (String d rest')) as [ | g gs ];
    [ eexists _, _; reflexivity | ].
  destruct (is_continuation d); eexists _, _; reflexivity.
Qed.

(** X16.  What a non-empty status filter makes of a body that is not an
    array: null, a boolean or a number cannot be iterated and raise
    TypeError; an empty object or an empty string give an empty list; a
    non-empty object or string raise AttributeError, since their keys and
    characters are strings, not records. *)
Theorem search_operators_on_other_shapes :
  forall (department : option string) (status : string) (base_url : option string)
         (w : World) (body : value),
    status <> "" ->
    result_of (underlying_fetch department base_url w) = Ok body ->
    let run := search_operators department (Some status) base_url w in
    (~ sized body -> result_of run = Raise TypeError)
    /\ (body = PyDict [] \/ body = PyStr "" -> result_of run = Ok (PyList []))
    /\ (forall entry entries, body = PyDict (entry :: entries) ->
          result_of run = Raise AttributeError)
    /\ (forall c rest, body = PyStr (String c rest) ->
          result_of run = Raise AttributeError).
Proof.
  intros department status base_url w body Hs Hfetch run. subst run.
  rewrite search_operators_run. cbv zeta.
  rewrite Hfetch, (effective_nonempty status Hs), filter_by_status_run.
  unfold result_of. cbn [fst].
  split; [ | split; [ | split ] ].
  - destruct body; cbn; intros H; try reflexivity; exfalso; apply H; exact I.
  - intros [-> | ->]; reflexivity.
  - intros [k v] entries ->. reflexivity.
  - intros c rest ->. cbn [iterate].
    destruct (characters_nonempty c rest) as (first & others & ->). reflexivity.
Qed.

Lemma search_operators_on_other_shapes_witness :
  result_of (search_operators None (Some "Active") None
               (constant_world {| status_code := 200; json_body := Some PyNone |}))
    = Raise TypeError
  /\ result_of (search_operators None (Some "Active") None
                  (constant_world {| status_code := 200; json_body := Some (PyDict []) |}))
     = Ok (PyList []).
Proof.
  split.
  - apply (proj1 (search_operators_on_other_shapes None "Active" None
                    (constant_world
                       {| status_code := 200; json_body := Some PyNone |})
                    PyNone ltac:(discriminate) eq_refl)).
    intros H. exact H.
  - apply (proj1 (proj2 (search_operators_on_other_shapes None "Active" None
                           (constant_world
                              {| status_code := 200; json_body := Some (PyDict []) |})
                           (PyDict []) ltac:(discriminate) eq_refl))).
    left. reflexivity.
Defined.

Lemma filter_has_status_again status items :
  Forall (fun op => get op "status" = Ok (PyStr status)) items ->
  comprehension (has_status status) items = Ok items.
Proof.
  induction 1 as [ | op rest Hop _ IH ]; cbn; [ reflexivity | ].
  unfold has_status at 1. rewrite Hop, IH. cbn. rewrite String.eqb_refl. reflexivity.
Qed.

Lemma filter_has_other_status status other items :
  other <> status ->
  Forall (fun op => get op "status" = Ok (PyStr status)) items ->
  comprehension (has_status other) items = Ok [].
Proof.
  intros Hne. induction 1 as [ | op rest Hop _ IH ]; cbn; [ reflexivity | ].
  unfold has_status at 1. rewrite Hop, IH. cbn.
  destruct (String.eqb_spec status other); [ congruence | reflexivity ].
Qed.

(** X17.  The status filter is idempotent, and two different statuses
    exclude each other: filtering the kept records by the same status again
    keeps them all, filtering them by any other status keeps none. *)
Theorem status_filter_idempotent :
  forall (status : string) (items kept : list value),
    comprehension (has_status status) items = Ok kept ->
    comprehension (has_status status) kept = Ok kept
    /\ (forall other, other <> status ->
          comprehension (has_status other) kept = Ok []).
Proof.
  intros status items kept Hkept.
  assert (Hall : Forall (fun op => get op "status" = Ok (PyStr status)) kept).
  { apply comprehension_kept in Hkept.
    eapply List.Forall_impl; [ | exact Hkept ].
    intros op. apply has_status_true. }
  split.
  - apply filter_has_status_again, Hall.
  - intros other Hne. eapply filter_has_other_status; eassumption.
Qed.

Lemma status_filter_idempotent_witness :
  comprehension (has_status "Active") [john_smith] = Ok [john_smith]
  /\ (forall other, other <> "Active" ->
        comprehension (has_status other) [john_smith] = Ok []).
Proof.
  apply (status_filter_idempotent "Active" [john_smith; mary_jones] [john_smith]).
  reflexivity.
Defined.

(** ** No caching *)

Lemma asks_again_intro (call : IO value) url :
  (forall w, call w = (fetched (get_request url) w, log_request (get_request url) w)) ->
  asks_again call url.
Proof.
  intros Hrun w. cbv zeta. rewrite !Hrun.
  unfold world_after, result_of. cbn [fst snd log_request sent].
  rewrite <- app_assoc. split; reflexivity.
Qed.

(** X18.  No accessor remembers an earlier answer: called a second time
    with the same arguments it sends the same request again, and its result
    is what the network answers to that second request. *)
Theorem accessors_ask_again :
  forall (operator_id : Z) (department code : string) (base_url : option string),
    let base := or_default DEFAULT_BASE_URL base_url in
    asks_again (get_operator_by_id operator_id base_url)
      (base ++ "/operators/" ++ str_of_int operator_id)
    /\ asks_again (get_all_operators base_url) (base ++ "/operators")
    /\ asks_again (get_operator_lots operator_id base_url)
         (base ++ "/operators/" ++ str_of_int operator_id ++ "/lots")
    /\ asks_again (get_operators_by_department department base_url)
         (base ++ "/operators/department/" ++ department)
    /\ asks_again (get_operator_by_code code base_url)
         (base ++ "/operators/code/" ++ code).
Proof.
  intros operator_id department code base_url base. subst base.
  repeat apply conj; apply asks_again_intro; intros w.
  - apply get_operator_by_id_run.
  - apply get_all_operators_run.
  - apply get_operator_lots_run.
  - apply get_operators_by_department_run.
  - apply get_operator_by_code_run.
Qed.

Lemma accessors_ask_again_witness :
  let w := one_shot_world john_smith in
  result_of (get_operator_by_id 1 None w) = Ok john_smith
  /\ result_of (get_operator_by_id 1 None (world_after (get_operator_by_id 1 None w)))
     = Raise (HTTPStatusError {| status_code := 503; json_body := None |}).
Proof.
  cbv zeta. split; [ reflexivity | ].
  rewrite (proj2 (proj1 (accessors_ask_again 1 "Production" "OP001" None)
                    (one_shot_world john_smith))).
  reflexivity.
Defined.

(** ** What escapes the safe wrapper *)


